(** * The pytest unit-test template of claude-tdd-agents

    The repository consists of one file,
    [shared/tdd/test-templates/pytest-unit.template.py]: a static Python
    text meant to be copied and edited into a real test file.  This
    development embeds that text character for character, reads it with a
    lexer and a parser for the part of Python's grammar the template is
    written in, and proves the structural properties of the document on
    the resulting syntax tree. *)

From Stdlib Require Import String Ascii List ZArith NArith Bool Lia.
From stdpp Require Import base strings gmap.
Import ListNotations.

Local Open Scope string_scope.

(** ** The template document, verbatim *)

Module Template.

(** The double quote character (ASCII 34) and the line feed (ASCII 10). *)
Definition Q : string := String "034"%char EmptyString.
Definition LF : string := String "010"%char EmptyString.

(** [dq s] is the source text of a double-quoted literal, [doc s] of a
    triple-quoted docstring. *)
Definition dq (s : string) : string := Q ++ s ++ Q.
Definition doc (s : string) : string := Q ++ Q ++ Q ++ s ++ Q ++ Q ++ Q.

(** The repository-relative path of the template. *)
Definition template_path : string :=
  "shared/tdd/test-templates/pytest-unit.template.py".

(** The 193 physical lines of the file, numbered as in the source.  The
    last line is not followed by a line feed. *)
Definition template_lines : list string := [
  (*   1 *) "import pytest";
  (*   2 *) "from unittest.mock import Mock, patch, MagicMock";
  (*   3 *) "from module_name import ClassOrFunctionName";
  (*   4 *) EmptyString;
  (*   5 *) EmptyString;
  (*   6 *) "class TestClassOrFunctionName:";
  (*   7 *) "    " ++ doc "Test suite for ClassOrFunctionName functionality.";
  (*   8 *) EmptyString;
  (*   9 *) "    def setup_method(self):";
  (*  10 *) "        " ++ doc "Set up test fixtures before each test method.";
  (*  11 *) "        # Arrange: Initialize test data";
  (*  12 *) "        self.test_data = {";
  (*  13 *) "            " ++ dq "id" ++ ": 1,";
  (*  14 *) "            " ++ dq "name" ++ ": " ++ dq "Test Entity" ++ ",";
  (*  15 *) "            " ++ dq "value" ++ ": 100";
  (*  16 *) "        }";
  (*  17 *) EmptyString;
  (*  18 *) "    def teardown_method(self):";
  (*  19 *) "        " ++ doc "Clean up after each test method.";
  (*  20 *) "        # Cleanup if needed";
  (*  21 *) "        pass";
  (*  22 *) EmptyString;
  (*  23 *) "    def test_should_expected_behavior_when_valid_input(self):";
  (*  24 *) "        " ++ doc "Test that function returns expected result with valid input.";
  (*  25 *) "        # Arrange";
  (*  26 *) "        input_data = self.test_data";
  (*  27 *) EmptyString;
  (*  28 *) "        # Act";
  (*  29 *) "        result = function_under_test(input_data)";
  (*  30 *) EmptyString;
  (*  31 *) "        # Assert";
  (*  32 *) "        assert result is not None";
  (*  33 *) "        assert result[" ++ dq "success" ++ "] is True";
  (*  34 *) "        assert result[" ++ dq "data" ++ "] == input_data";
  (*  35 *) EmptyString;
  (*  36 *) "    def test_should_raise_error_when_invalid_input(self):";
  (*  37 *) "        " ++ doc "Test that function raises appropriate error with invalid input.";
  (*  38 *) "        # Arrange";
  (*  39 *) "        invalid_input = None";
  (*  40 *) EmptyString;
  (*  41 *) "        # Act & Assert";
  (*  42 *) "        with pytest.raises(ValueError, match=" ++ dq "Expected error message" ++ "):";
  (*  43 *) "            function_under_test(invalid_input)";
  (*  44 *) EmptyString;
  (*  45 *) "    def test_should_handle_edge_case_when_empty_input(self):";
  (*  46 *) "        " ++ doc "Test that function handles empty input correctly.";
  (*  47 *) "        # Arrange";
  (*  48 *) "        empty_input = {}";
  (*  49 *) EmptyString;
  (*  50 *) "        # Act";
  (*  51 *) "        result = function_under_test(empty_input)";
  (*  52 *) EmptyString;
  (*  53 *) "        # Assert";
  (*  54 *) "        assert result == expected_default_value";
  (*  55 *) EmptyString;
  (*  56 *) "    @pytest.mark.parametrize(" ++ dq "input_value,expected_output" ++ ", [";
  (*  57 *) "        (10, 20),";
  (*  58 *) "        (50, 100),";
  (*  59 *) "        (0, 0),";
  (*  60 *) "        (-5, -10),";
  (*  61 *) "    ])";
  (*  62 *) "    def test_should_calculate_correctly_when_given_values(";
  (*  63 *) "        self, input_value, expected_output";
  (*  64 *) "    ):";
  (*  65 *) "        " ++ doc "Test calculation with various input values.";
  (*  66 *) "        # Act";
  (*  67 *) "        result = calculate_function(input_value)";
  (*  68 *) EmptyString;
  (*  69 *) "        # Assert";
  (*  70 *) "        assert result == expected_output";
  (*  71 *) EmptyString;
  (*  72 *) EmptyString;
  (*  73 *) "class TestClassWithDependencies:";
  (*  74 *) "    " ++ doc "Test suite for class with external dependencies.";
  (*  75 *) EmptyString;
  (*  76 *) "    @pytest.fixture";
  (*  77 *) "    def mock_database(self):";
  (*  78 *) "        " ++ doc "Mock database dependency.";
  (*  79 *) "        db = Mock()";
  (*  80 *) "        db.query.return_value = [{" ++ dq "id" ++ ": 1, " ++ dq "name" ++ ": " ++ dq "Test" ++ "}]";
  (*  81 *) "        db.execute.return_value = True";
  (*  82 *) "        return db";
  (*  83 *) EmptyString;
  (*  84 *) "    @pytest.fixture";
  (*  85 *) "    def service_instance(self, mock_database):";
  (*  86 *) "        " ++ doc "Create service instance with mocked dependencies.";
  (*  87 *) "        return ServiceClass(database=mock_database)";
  (*  88 *) EmptyString;
  (*  89 *) "    def test_should_fetch_data_when_id_provided(";
  (*  90 *) "        self, service_instance, mock_database";
  (*  91 *) "    ):";
  (*  92 *) "        " ++ doc "Test that service fetches data from database.";
  (*  93 *) "        # Arrange";
  (*  94 *) "        entity_id = 1";
  (*  95 *) EmptyString;
  (*  96 *) "        # Act";
  (*  97 *) "        result = service_instance.get_by_id(entity_id)";
  (*  98 *) EmptyString;
  (*  99 *) "        # Assert";
  (* 100 *) "        assert result is not None";
  (* 101 *) "        assert result[" ++ dq "id" ++ "] == entity_id";
  (* 102 *) "        mock_database.query.assert_called_once_with(";
  (* 103 *) "            " ++ dq "SELECT * FROM table WHERE id = %s" ++ ", (entity_id,)";
  (* 104 *) "        )";
  (* 105 *) EmptyString;
  (* 106 *) "    def test_should_create_entity_when_valid_data(";
  (* 107 *) "        self, service_instance, mock_database";
  (* 108 *) "    ):";
  (* 109 *) "        " ++ doc "Test that service creates entity successfully.";
  (* 110 *) "        # Arrange";
  (* 111 *) "        new_entity = {" ++ dq "name" ++ ": " ++ dq "New Entity" ++ ", " ++ dq "value" ++ ": 50}";
  (* 112 *) EmptyString;
  (* 113 *) "        # Act";
  (* 114 *) "        result = service_instance.create(new_entity)";
  (* 115 *) EmptyString;
  (* 116 *) "        # Assert";
  (* 117 *) "        assert result[" ++ dq "success" ++ "] is True";
  (* 118 *) "        mock_database.execute.assert_called_once()";
  (* 119 *) EmptyString;
  (* 120 *) EmptyString;
  (* 121 *) "class TestAsyncOperations:";
  (* 122 *) "    " ++ doc "Test suite for async functions.";
  (* 123 *) EmptyString;
  (* 124 *) "    @pytest.mark.asyncio";
  (* 125 *) "    async def test_should_fetch_data_when_api_call_succeeds(self):";
  (* 126 *) "        " ++ doc "Test async API call with successful response.";
  (* 127 *) "        # Arrange";
  (* 128 *) "        mock_response = {" ++ dq "id" ++ ": 1, " ++ dq "data" ++ ": " ++ dq "test" ++ "}";
  (* 129 *) EmptyString;
  (* 130 *) "        with patch('module.api_client') as mock_api:";
  (* 131 *) "            mock_api.get.return_value = mock_response";
  (* 132 *) EmptyString;
  (* 133 *) "            # Act";
  (* 134 *) "            result = await async_function_under_test(1)";
  (* 135 *) EmptyString;
  (* 136 *) "            # Assert";
  (* 137 *) "            assert result == mock_response";
  (* 138 *) "            mock_api.get.assert_called_once_with(1)";
  (* 139 *) EmptyString;
  (* 140 *) "    @pytest.mark.asyncio";
  (* 141 *) "    async def test_should_handle_error_when_api_call_fails(self):";
  (* 142 *) "        " ++ doc "Test async function handles API errors.";
  (* 143 *) "        # Arrange";
  (* 144 *) "        with patch('module.api_client') as mock_api:";
  (* 145 *) "            mock_api.get.side_effect = ConnectionError(" ++ dq "API unavailable" ++ ")";
  (* 146 *) EmptyString;
  (* 147 *) "            # Act & Assert";
  (* 148 *) "            with pytest.raises(ConnectionError):";
  (* 149 *) "                await async_function_under_test(1)";
  (* 150 *) EmptyString;
  (* 151 *) EmptyString;
  (* 152 *) "class TestDomainEntity:";
  (* 153 *) "    " ++ doc "Test suite for domain entity business logic.";
  (* 154 *) EmptyString;
  (* 155 *) "    def test_should_create_entity_when_valid_input(self):";
  (* 156 *) "        " ++ doc "Test entity creation with valid data.";
  (* 157 *) "        # Arrange";
  (* 158 *) "        title = " ++ dq "Test Title";
  (* 159 *) "        content = " ++ dq "Test Content";
  (* 160 *) EmptyString;
  (* 161 *) "        # Act";
  (* 162 *) "        entity = DomainEntity.create(title, content)";
  (* 163 *) EmptyString;
  (* 164 *) "        # Assert";
  (* 165 *) "        assert entity.id is not None";
  (* 166 *) "        assert entity.title == title";
  (* 167 *) "        assert entity.content == content";
  (* 168 *) "        assert entity.status == " ++ dq "draft";
  (* 169 *) EmptyString;
  (* 170 *) "    def test_should_raise_domain_error_when_invalid_business_rule(self):";
  (* 171 *) "        " ++ doc "Test that entity enforces business rules.";
  (* 172 *) "        # Arrange";
  (* 173 *) "        entity = DomainEntity.create(" ++ dq "Title" ++ ", " ++ dq "Content" ++ ")";
  (* 174 *) EmptyString;
  (* 175 *) "        # Act & Assert";
  (* 176 *) "        # Business rule: Cannot publish without tags";
  (* 177 *) "        with pytest.raises(DomainError, match=" ++ dq "Cannot publish without tags" ++ "):";
  (* 178 *) "            entity.publish()";
  (* 179 *) EmptyString;
  (* 180 *) "    def test_should_apply_business_logic_when_method_called(self):";
  (* 181 *) "        " ++ doc "Test entity business logic.";
  (* 182 *) "        # Arrange";
  (* 183 *) "        entity = DomainEntity.create(" ++ dq "Title" ++ ", " ++ dq "Content" ++ ")";
  (* 184 *) "        entity.add_tag(" ++ dq "test" ++ ")";
  (* 185 *) EmptyString;
  (* 186 *) "        # Act";
  (* 187 *) "        entity.publish()";
  (* 188 *) EmptyString;
  (* 189 *) "        # Assert";
  (* 190 *) "        assert entity.status == " ++ dq "published";
  (* 191 *) "        assert entity.published_at is not None";
  (* 192 *) "        assert len(entity.get_events()) == 1";
  (* 193 *) "        assert isinstance(entity.get_events()[0], EntityPublishedEvent)"
].

(** The content of the file: its lines joined by line feeds. *)
Definition template_text : string := String.concat LF template_lines.

End Template.

(** ** Results of the syntax checker *)

(** A check either yields a value or reports a syntax error, as Python's
    own compiler does with [SyntaxError]. *)
Inductive result (A : Type) : Type :=
| Parsed (a : A)
| SyntaxError (msg : string).
Arguments Parsed {A} a.
Arguments SyntaxError {A} msg.

Definition bind {A B : Type} (r : result A) (k : A -> result B) : result B :=
  match r with
  | Parsed a => k a
  | SyntaxError msg => SyntaxError msg
  end.

Notation "'let*' p ':=' e 'in' k" := (bind e (fun p => k))
  (at level 10, p pattern, e at level 200, k at level 200).

Definition is_parsed {A : Type} (r : result A) : bool :=
  match r with Parsed _ => true | SyntaxError _ => false end.

(** ** Lexical analysis

    The lexer follows Python's lexical rules on the ASCII subset the
    template is written in: logical lines, indentation turned into
    [INDENT] and [DEDENT] tokens, implicit line joining inside brackets,
    comments, names, keywords, decimal integers, string literals without
    escapes, and the delimiters listed in [punct].  Whatever lies outside
    that subset is reported as a syntax error, never skipped. *)

Module Lexer.

Inductive keyword : Type :=
| kw_import | kw_from | kw_class | kw_def | kw_async | kw_await | kw_pass
| kw_return | kw_assert | kw_with | kw_as | kw_is | kw_not
| kw_None | kw_True | kw_False.

(** Delimiters and operators, named as in Python's [token] module. *)
Inductive punct : Type :=
| LPAR | RPAR | LSQB | RSQB | LBRACE | RBRACE
| COMMA | COLON | DOT | EQUAL | EQEQUAL | MINUS | AT.

Inductive token : Type :=
| NAME (id : string)
| KW (k : keyword)
| NUMBER (n : N)
| STRING (s : string)
| OP (p : punct)
| NEWLINE
| INDENT
| DEDENT
| ENDMARKER.

(** Python's reserved words.  The ones of [keyword] are lexed as [KW];
    the others belong to constructs outside the subset and are refused. *)
Definition keyword_of (w : string) : option keyword :=
  if String.eqb w "import" then Some kw_import
  else if String.eqb w "from" then Some kw_from
  else if String.eqb w "class" then Some kw_class
  else if String.eqb w "def" then Some kw_def
  else if String.eqb w "async" then Some kw_async
  else if String.eqb w "await" then Some kw_await
  else if String.eqb w "pass" then Some kw_pass
  else if String.eqb w "return" then Some kw_return
  else if String.eqb w "assert" then Some kw_assert
  else if String.eqb w "with" then Some kw_with
  else if String.eqb w "as" then Some kw_as
  else if String.eqb w "is" then Some kw_is
  else if String.eqb w "not" then Some kw_not
  else if String.eqb w "None" then Some kw_None
  else if String.eqb w "True" then Some kw_True
  else if String.eqb w "False" then Some kw_False
  else None.

Definition other_keywords : list string :=
  [ "and"; "break"; "continue"; "del"; "elif"; "else"; "except"; "finally";
    "for"; "global"; "if"; "in"; "lambda"; "nonlocal"; "or"; "raise"; "try";
    "while"; "yield" ].

Definition mem_string (x : string) (l : list string) : bool :=
  existsb (String.eqb x) l.

(** *** Character classes *)

Definition code (c : ascii) : nat := nat_of_ascii c.

Definition between (lo hi : nat) (c : ascii) : bool :=
  Nat.leb lo (code c) && Nat.leb (code c) hi.

Definition is_digit (c : ascii) : bool := between 48 57 c.
Definition is_name_start (c : ascii) : bool :=
  between 65 90 c || between 97 122 c || Nat.eqb (code c) 95.
Definition is_name_char (c : ascii) : bool := is_name_start c || is_digit c.
Definition is_quote (c : ascii) : bool :=
  Nat.eqb (code c) 34 || Nat.eqb (code c) 39.
Definition is_printable (c : ascii) : bool := between 32 126 c.
Definition is_char (n : nat) (c : ascii) : bool := Nat.eqb (code c) n.

(** The first character of a string satisfies [p]. *)
Definition starts (p : ascii -> bool) (s : string) : bool :=
  match s with
  | String c _ => p c
  | EmptyString => false
  end.

(** The longest prefix whose characters satisfy [p], and the rest. *)
Fixpoint span (p : ascii -> bool) (s : string) : string * string :=
  match s with
  | String c s' =>
      if p c then let (a, b) := span p s' in (String c a, b)
      else (EmptyString, s)
  | EmptyString => (EmptyString, EmptyString)
  end.

Fixpoint all_chars (p : ascii -> bool) (s : string) : bool :=
  match s with
  | String c s' => p c && all_chars p s'
  | EmptyString => true
  end.

(** *** Physical lines *)

(** The text cut at its line feeds; a text of [n] line feeds has [n + 1]
    lines, the last one possibly empty. *)
Fixpoint split_lines (s : string) : list string :=
  match s with
  | EmptyString => [EmptyString]
  | String c s' =>
      if is_char 10 c then EmptyString :: split_lines s'
      else match split_lines s' with
           | l :: ls => String c l :: ls
           | [] => [String c EmptyString]
           end
  end.

Definition no_line_feed (l : string) : bool :=
  all_chars (fun c => negb (is_char 10 c)) l.

(** The number of lines of a text as an editor counts them: a final line
    feed ends the last line and starts no further one. *)
Definition line_count (s : string) : nat :=
  match rev (split_lines s) with
  | EmptyString :: ls => length ls
  | ls => length ls
  end.

(** *** Literals *)

(** The body of a string literal opened by the quote [q], up to the
    closing quote, and the text after it.  The literal ends on its line;
    a backslash is outside the subset. *)
Fixpoint scan_short (q : ascii) (s : string) : option (string * string) :=
  match s with
  | EmptyString => None
  | String c s' =>
      if Ascii.eqb c q then Some (EmptyString, s')
      else if is_char 92 c then None
      else match scan_short q s' with
           | Some (body, rest) => Some (String c body, rest)
           | None => None
           end
  end.

(** The same for a triple-quoted literal, closed by the first three
    quotes in a row. *)
Fixpoint scan_long (q : ascii) (s : string) : option (string * string) :=
  match s with
  | EmptyString => None
  | String c s' =>
      match s' with
      | String c2 (String c3 rest) =>
          if Ascii.eqb c q && Ascii.eqb c2 q && Ascii.eqb c3 q
          then Some (EmptyString, rest)
          else if is_char 92 c then None
          else match scan_long q s' with
               | Some (body, rest') => Some (String c body, rest')
               | None => None
               end
      | _ => None
      end
  end.

(** The value of a string of decimal digits. *)
Fixpoint digits_value (acc : N) (s : string) : N :=
  match s with
  | String c s' => digits_value (acc * 10 + N.of_nat (code c - 48)) s'
  | EmptyString => acc
  end.

(** A decimal integer literal has no leading zero unless it is zero, and
    at most 4300 digits. *)
Definition decimal_ok (d : string) : bool :=
  (negb (starts (is_char 48) d) || all_chars (is_char 48) d)
  && Nat.leb (String.length d) 4300.

(** *** The tokens of one line *)

(** Python's tokenizer refuses more than 200 open brackets and more than
    100 indentation levels. *)
Definition max_brackets : nat := 200.
Definition max_indent : nat := 100.

(** What the lexer answers when its fuel runs out. *)
Definition out_of_fuel {A : Type} : result A :=
  SyntaxError "line too long for the lexer".

(** [lex_chars fuel s depth] reads the tokens of [s], the rest of a line
    from its first non-blank character, where [depth] brackets are open;
    it returns the tokens and the number of brackets open at the end of
    the line.  Every step consumes a character, so [fuel] above the length
    of [s] is enough. *)
Fixpoint lex_chars (fuel : nat) (s : string) (depth : nat)
  : result (list token * nat) :=
  match fuel with
  | O => out_of_fuel
  | S fuel' =>
      let emit (t : token) (rest : string) (depth' : nat) :=
        let* (ts, d) := lex_chars fuel' rest depth' in Parsed (t :: ts, d) in
      let open (p : punct) (rest : string) :=
        if Nat.ltb depth max_brackets then emit (OP p) rest (S depth)
        else SyntaxError "too many nested parentheses" in
      let close (p : punct) (rest : string) :=
        match depth with
        | O => SyntaxError "unmatched closing bracket"
        | S d => emit (OP p) rest d
        end in
      match s with
      | EmptyString => Parsed ([], depth)
      | String c rest =>
          if is_char 32 c then lex_chars fuel' rest depth
          else if is_char 35 c then Parsed ([], depth)
          else if is_name_start c then
            let (w, r) := span is_name_char s in
            if starts is_quote r then SyntaxError "string prefixes are not supported"
            else match keyword_of w with
                 | Some k => emit (KW k) r depth
                 | None =>
                     if mem_string w other_keywords
                     then SyntaxError "keyword outside the supported subset"
                     else emit (NAME w) r depth
                 end
          else if is_digit c then
            let (d, r) := span is_digit s in
            if starts is_name_char r || starts (is_char 46) r || starts is_quote r
            then SyntaxError "invalid decimal literal"
            else if decimal_ok d then emit (NUMBER (digits_value 0 d)) r depth
            else SyntaxError "invalid decimal literal"
          else if is_quote c then
            match rest with
            | String c2 (String c3 r3) =>
                if Ascii.eqb c2 c && Ascii.eqb c3 c then
                  match scan_long c r3 with
                  | Some (body, r) => emit (STRING body) r depth
                  | None => SyntaxError "unterminated triple-quoted string literal"
                  end
                else
                  match scan_short c rest with
                  | Some (body, r) => emit (STRING body) r depth
                  | None => SyntaxError "unterminated string literal"
                  end
            | _ =>
                match scan_short c rest with
                | Some (body, r) => emit (STRING body) r depth
                | None => SyntaxError "unterminated string literal"
                end
            end
          else if is_char 40 c then open LPAR rest
          else if is_char 41 c then close RPAR rest
          else if is_char 91 c then open LSQB rest
          else if is_char 93 c then close RSQB rest
          else if is_char 123 c then open LBRACE rest
          else if is_char 125 c then close RBRACE rest
          else if is_char 44 c then emit (OP COMMA) rest depth
          else if is_char 58 c then
            if starts (is_char 61) rest then SyntaxError "unsupported operator"
            else emit (OP COLON) rest depth
          else if is_char 46 c then
            if starts (is_char 46) rest || starts is_digit rest
            then SyntaxError "unsupported token"
            else emit (OP DOT) rest depth
          else if is_char 61 c then
            match rest with
            | String c2 rest2 =>
                if is_char 61 c2 then emit (OP EQEQUAL) rest2 depth
                else emit (OP EQUAL) rest depth
            | EmptyString => emit (OP EQUAL) rest depth
            end
          else if is_char 45 c then
            if starts (is_char 61) rest || starts (is_char 62) rest
            then SyntaxError "unsupported operator"
            else emit (OP MINUS) rest depth
          else if is_char 64 c then
            if starts (is_char 61) rest then SyntaxError "unsupported operator"
            else emit (OP AT) rest depth
          else SyntaxError "character outside the supported subset"
      end
  end.

(** *** Indentation and logical lines *)

(** The number of leading spaces of a line, and the line without them. *)
Fixpoint count_indent (s : string) : nat * string :=
  match s with
  | String c s' =>
      if is_char 32 c then let (n, r) := count_indent s' in (S n, r)
      else (O, s)
  | EmptyString => (O, EmptyString)
  end.

(** A line that holds only blanks, or blanks and a comment, yields no
    token and leaves the indentation as it is. *)
Definition is_blank (body : string) : bool :=
  match body with
  | EmptyString => true
  | String c _ => is_char 35 c
  end.

(** [dedent_to col stack]: how many indentation levels of [stack] (the
    innermost first, column 0 left out) are closed by a line that starts
    at column [col], and the levels that stay open.  The column must be
    one of the open levels. *)
Fixpoint dedent_to (col : nat) (stack : list nat) : option (nat * list nat) :=
  match stack with
  | [] => if Nat.eqb col 0 then Some (O, []) else None
  | top :: below =>
      if Nat.eqb col top then Some (O, stack)
      else if Nat.ltb col top then
        match dedent_to col below with
        | Some (n, st) => Some (S n, st)
        | None => None
        end
      else None
  end.

Definition indent_tokens (col : nat) (stack : list nat)
  : result (list token * list nat) :=
  if Nat.ltb (hd O stack) col then
    if Nat.ltb (length stack) max_indent then Parsed ([INDENT], col :: stack)
    else SyntaxError "too many levels of indentation"
  else
    match dedent_to col stack with
    | Some (n, st) => Parsed (repeat DEDENT n, st)
    | None =>
        SyntaxError "unindent does not match any outer indentation level"
    end.

(** The tokens of the lines [ls], with the indentation levels [stack]
    open and [depth] brackets open before the first of them.  A logical
    line ends with [NEWLINE] where no bracket is open; the end of the text
    closes every indentation level. *)
Fixpoint lex_lines (ls : list string) (stack : list nat) (depth : nat)
  : result (list token) :=
  match ls with
  | [] =>
      if Nat.eqb depth 0
      then Parsed (repeat DEDENT (length stack) ++ [ENDMARKER])%list
      else SyntaxError "bracket was never closed"
  | l :: ls' =>
      let (col, body) := count_indent l in
      if is_blank body then lex_lines ls' stack depth
      else
        let* (pre, stack') :=
          (if Nat.eqb depth 0 then indent_tokens col stack
           else Parsed ([], stack)) in
        let* (toks, depth') := lex_chars (S (String.length body)) body depth in
        let* rest := lex_lines ls' stack' depth' in
        Parsed (pre ++ toks
                ++ (if Nat.eqb depth' 0 then [NEWLINE] else []) ++ rest)%list
  end.

(** A source text is made of printable ASCII characters and line feeds:
    no tab, no carriage return, no form feed, no byte above 126. *)
Definition source_char (c : ascii) : bool := is_printable c || is_char 10 c.

(** A comment of the first two lines that holds the word [coding] may
    declare another encoding of the file; such a text is refused. *)
Fixpoint has_infix (w s : string) : bool :=
  String.prefix w s
  || match s with
     | String _ s' => has_infix w s'
     | EmptyString => false
     end.

Definition declares_encoding (ls : list string) : bool :=
  existsb (has_infix "coding") (firstn 2 ls).

Definition tokenize (text : string) : result (list token) :=
  if negb (all_chars source_char text)
  then SyntaxError "character outside printable ASCII"
  else
    let ls := split_lines text in
    if declares_encoding ls then SyntaxError "encoding declaration"
    else lex_lines ls [] 0.

End Lexer.

(** ** Abstract syntax

    The constructors follow the node classes of Python's [ast] module. *)

Module Ast.

#[local] Set Warnings "-register-all".

Inductive constant : Type := CNone | CTrue | CFalse.

Inductive cmpop : Type := Eq | Is | IsNot.

Inductive expr : Type :=
| Name (id : string)
| Num (n : N)
| Str (s : string)
| Constant (c : constant)
| Attribute (value : expr) (attr : string)
| Subscript (value : expr) (index : expr)
| Call (func : expr) (args : list expr) (keywords : list (string * expr))
| Tuple (elts : list expr)
| ListDisplay (elts : list expr)
| Dict (items : list (expr * expr))
| Compare (left : expr) (rest : list (cmpop * expr))
| Neg (operand : expr)
| Await (value : expr).

Inductive stmt : Type :=
| Import (module : list string)
| ImportFrom (module : list string) (names : list string)
| ClassDef (name : string) (decorators : list expr) (body : list stmt)
| FunctionDef (is_async : bool) (name : string) (params : list string)
    (decorators : list expr) (body : list stmt)
| Assign (target : expr) (value : expr)
| Expr (value : expr)
| Assert (test : expr) (msg : option expr)
| Pass
| Return (value : option expr)
| With (items : list (expr * option string)) (body : list stmt).

End Ast.

(** ** The parser

    A recursive-descent parser for the statements and expressions the
    template uses.  Each function takes the tokens still to read and
    returns what it parsed with the tokens after it.  The recursion is on
    a fuel that bounds the depth of the calls. *)

Module Parser.
Import Lexer Ast.

Definition invalid {A : Type} : result A := SyntaxError "invalid syntax".
Definition exhausted {A : Type} : result A :=
  SyntaxError "expression or block nested too deeply".

(** The next token is the delimiter [p]. *)
Definition expect (p : punct) (ts : list token) : result (list token) :=
  match ts with
  | OP q :: ts' =>
      match p, q with
      | LPAR, LPAR | RPAR, RPAR | LSQB, LSQB | RSQB, RSQB
      | LBRACE, LBRACE | RBRACE, RBRACE | COMMA, COMMA | COLON, COLON
      | DOT, DOT | EQUAL, EQUAL | EQEQUAL, EQEQUAL | MINUS, MINUS
      | AT, AT => Parsed ts'
      | _, _ => invalid
      end
  | _ => invalid
  end.

Definition expect_newline (ts : list token) : result (list token) :=
  match ts with
  | NEWLINE :: ts' => Parsed ts'
  | _ => invalid
  end.

(** *** Expressions *)

Fixpoint parse_expr (fuel : nat) (ts : list token) {struct fuel}
  : result (expr * list token) :=
  match fuel with
  | O => exhausted
  | S f =>
      let* (l, ts1) := parse_unary f ts in
      let* (rest, ts2) := parse_compare_rest f ts1 in
      Parsed (match rest with [] => l | _ => Compare l rest end, ts2)
  end

with parse_compare_rest (fuel : nat) (ts : list token) {struct fuel}
  : result (list (cmpop * expr) * list token) :=
  match fuel with
  | O => exhausted
  | S f =>
      let operand (op : cmpop) (ts1 : list token) :=
        let* (e, ts2) := parse_unary f ts1 in
        let* (rest, ts3) := parse_compare_rest f ts2 in
        Parsed ((op, e) :: rest, ts3) in
      match ts with
      | OP EQEQUAL :: ts1 => operand Eq ts1
      | KW kw_is :: KW kw_not :: ts1 => operand IsNot ts1
      | KW kw_is :: ts1 => operand Is ts1
      | _ => Parsed ([], ts)
      end
  end

with parse_unary (fuel : nat) (ts : list token) {struct fuel}
  : result (expr * list token) :=
  match fuel with
  | O => exhausted
  | S f =>
      match ts with
      | OP MINUS :: ts1 =>
          let* (e, ts2) := parse_unary f ts1 in Parsed (Neg e, ts2)
      | KW kw_await :: ts1 =>
          let* (a, ts2) := parse_atom f ts1 in
          let* (e, ts3) := parse_trailers f a ts2 in
          Parsed (Await e, ts3)
      | _ =>
          let* (a, ts1) := parse_atom f ts in
          parse_trailers f a ts1
      end
  end

(** Attribute references, calls and subscriptions after a primary. *)
with parse_trailers (fuel : nat) (e : expr) (ts : list token) {struct fuel}
  : result (expr * list token) :=
  match fuel with
  | O => exhausted
  | S f =>
      match ts with
      | OP DOT :: NAME a :: ts1 => parse_trailers f (Attribute e a) ts1
      | OP DOT :: _ => invalid
      | OP LPAR :: ts1 =>
          let* (pos, kws, ts2) := parse_args f ts1 in
          parse_trailers f (Call e pos kws) ts2
      | OP LSQB :: ts1 =>
          let* (i, ts2) := parse_expr f ts1 in
          let* ts3 := expect RSQB ts2 in
          parse_trailers f (Subscript e i) ts3
      | _ => Parsed (e, ts)
      end
  end

(** The arguments of a call, after its opening parenthesis and up to the
    closing one: positional arguments first, keyword arguments after
    them, no keyword twice. *)
with parse_args (fuel : nat) (ts : list token) {struct fuel}
  : result (list expr * list (string * expr) * list token) :=
  match fuel with
  | O => exhausted
  | S f =>
      match ts with
      | OP RPAR :: ts1 => Parsed ([], [], ts1)
      | NAME k :: OP EQUAL :: ts1 =>
          let* (v, ts2) := parse_expr f ts1 in
          let* (pos, kws, ts3) := parse_args_tail f ts2 in
          match pos with
          | [] =>
              if mem_string k (map fst kws)
              then SyntaxError "keyword argument repeated"
              else Parsed ([], (k, v) :: kws, ts3)
          | _ :: _ =>
              SyntaxError "positional argument follows keyword argument"
          end
      | _ =>
          let* (e, ts1) := parse_expr f ts in
          let* (pos, kws, ts2) := parse_args_tail f ts1 in
          Parsed (e :: pos, kws, ts2)
      end
  end

with parse_args_tail (fuel : nat) (ts : list token) {struct fuel}
  : result (list expr * list (string * expr) * list token) :=
  match fuel with
  | O => exhausted
  | S f =>
      match ts with
      | OP RPAR :: ts1 => Parsed ([], [], ts1)
      | OP COMMA :: ts1 => parse_args f ts1
      | _ => invalid
      end
  end

(** The elements of a display or a parenthesised form, up to the closing
    delimiter [close]; the flag tells whether a comma was read. *)
with parse_elts (fuel : nat) (close : punct) (ts : list token) {struct fuel}
  : result (list expr * bool * list token) :=
  match fuel with
  | O => exhausted
  | S f =>
      match expect close ts with
      | Parsed ts1 => Parsed ([], false, ts1)
      | SyntaxError _ =>
          let* (e, ts1) := parse_expr f ts in
          match expect close ts1 with
          | Parsed ts2 => Parsed ([e], false, ts2)
          | SyntaxError _ =>
              let* ts2 := expect COMMA ts1 in
              let* (es, _, ts3) := parse_elts f close ts2 in
              Parsed (e :: es, true, ts3)
          end
      end
  end

(** The items of a dictionary display, up to the closing brace. *)
with parse_items (fuel : nat) (ts : list token) {struct fuel}
  : result (list (expr * expr) * list token) :=
  match fuel with
  | O => exhausted
  | S f =>
      match ts with
      | OP RBRACE :: ts1 => Parsed ([], ts1)
      | _ =>
          let* (k, ts1) := parse_expr f ts in
          let* ts2 := expect COLON ts1 in
          let* (v, ts3) := parse_expr f ts2 in
          match ts3 with
          | OP RBRACE :: ts4 => Parsed ([(k, v)], ts4)
          | OP COMMA :: ts4 =>
              let* (kvs, ts5) := parse_items f ts4 in
              Parsed ((k, v) :: kvs, ts5)
          | _ => invalid
          end
      end
  end

with parse_atom (fuel : nat) (ts : list token) {struct fuel}
  : result (expr * list token) :=
  match fuel with
  | O => exhausted
  | S f =>
      match ts with
      | NAME x :: ts1 => Parsed (Name x, ts1)
      | NUMBER n :: ts1 => Parsed (Num n, ts1)
      | STRING s :: ts1 => Parsed (Str s, ts1)
      | KW kw_None :: ts1 => Parsed (Constant CNone, ts1)
      | KW kw_True :: ts1 => Parsed (Constant CTrue, ts1)
      | KW kw_False :: ts1 => Parsed (Constant CFalse, ts1)
      | OP LPAR :: ts1 =>
          let* (es, comma, ts2) := parse_elts f RPAR ts1 in
          match es, comma with
          | [e], false => Parsed (e, ts2)
          | _, _ => Parsed (Tuple es, ts2)
          end
      | OP LSQB :: ts1 =>
          let* (es, _, ts2) := parse_elts f RSQB ts1 in
          Parsed (ListDisplay es, ts2)
      | OP LBRACE :: ts1 =>
          let* (kvs, ts2) := parse_items f ts1 in
          Parsed (Dict kvs, ts2)
      | _ => invalid
      end
  end.

(** *** Statements *)

(** The further components of a dotted name: [.b.c] after [a]. *)
Fixpoint parse_dotted_rest (ts : list token) : list string * list token :=
  match ts with
  | OP DOT :: NAME x :: ts' =>
      let (xs, r) := parse_dotted_rest ts' in (x :: xs, r)
  | _ => ([], ts)
  end.

(** The further names of an import list: [, b, c] after [a]. *)
Fixpoint parse_names_rest (ts : list token) : list string * list token :=
  match ts with
  | OP COMMA :: NAME x :: ts' =>
      let (xs, r) := parse_names_rest ts' in (x :: xs, r)
  | _ => ([], ts)
  end.

(** The parameters of a function, after the opening parenthesis and up
    to the closing one: plain names, a trailing comma allowed. *)
Fixpoint parse_params (ts : list token) : result (list string * list token) :=
  match ts with
  | OP RPAR :: ts' => Parsed ([], ts')
  | NAME x :: OP RPAR :: ts' => Parsed ([x], ts')
  | NAME x :: OP COMMA :: ts' =>
      let* (xs, r) := parse_params ts' in Parsed (x :: xs, r)
  | _ => invalid
  end.

(** A decorator is a dotted name, possibly called. *)
Fixpoint is_dotted_name (e : expr) : bool :=
  match e with
  | Name _ => true
  | Attribute v _ => is_dotted_name v
  | _ => false
  end.

Definition is_decorator (e : expr) : bool :=
  match e with
  | Call f _ _ => is_dotted_name f
  | _ => is_dotted_name e
  end.

(** What may stand on the left of [=]. *)
Definition is_target (e : expr) : bool :=
  match e with
  | Name _ | Attribute _ _ | Subscript _ _ => true
  | _ => false
  end.

Fixpoint parse_decorators (fuel : nat) (ts : list token)
  : result (list expr * list token) :=
  match fuel with
  | O => exhausted
  | S f =>
      match ts with
      | OP AT :: ts1 =>
          let* (e, ts2) := parse_expr f ts1 in
          if is_decorator e then
            let* ts3 := expect_newline ts2 in
            let* (ds, ts4) := parse_decorators f ts3 in
            Parsed (e :: ds, ts4)
          else invalid
      | _ => Parsed ([], ts)
      end
  end.

(** The items of a [with] statement, up to the colon (left unread). *)
Fixpoint parse_with_items (fuel : nat) (ts : list token)
  : result (list (expr * option string) * list token) :=
  match fuel with
  | O => exhausted
  | S f =>
      let* (e, ts1) := parse_expr f ts in
      let more (item : expr * option string) (ts2 : list token) :=
        match ts2 with
        | OP COMMA :: ts3 =>
            let* (items, ts4) := parse_with_items f ts3 in
            Parsed (item :: items, ts4)
        | _ => Parsed ([item], ts2)
        end in
      match ts1 with
      | KW kw_as :: NAME x :: ts2 => more (e, Some x) ts2
      | KW kw_as :: _ => invalid
      | _ => more (e, None) ts1
      end
  end.

(** A statement that fits on one logical line. *)
Definition parse_simple (f : nat) (ts : list token)
  : result (stmt * list token) :=
  match ts with
  | KW kw_pass :: ts1 =>
      let* ts2 := expect_newline ts1 in Parsed (Pass, ts2)
  | KW kw_import :: NAME m :: ts1 =>
      let (ms, ts2) := parse_dotted_rest ts1 in
      let* ts3 := expect_newline ts2 in Parsed (Import (m :: ms), ts3)
  | KW kw_from :: NAME m :: ts1 =>
      let (ms, ts2) := parse_dotted_rest ts1 in
      match ts2 with
      | KW kw_import :: NAME x :: ts3 =>
          let (xs, ts4) := parse_names_rest ts3 in
          let* ts5 := expect_newline ts4 in
          Parsed (ImportFrom (m :: ms) (x :: xs), ts5)
      | _ => invalid
      end
  | KW kw_return :: NEWLINE :: ts1 => Parsed (Return None, ts1)
  | KW kw_return :: ts1 =>
      let* (e, ts2) := parse_expr f ts1 in
      let* ts3 := expect_newline ts2 in Parsed (Return (Some e), ts3)
  | KW kw_assert :: ts1 =>
      let* (e, ts2) := parse_expr f ts1 in
      match ts2 with
      | OP COMMA :: ts3 =>
          let* (m, ts4) := parse_expr f ts3 in
          let* ts5 := expect_newline ts4 in Parsed (Assert e (Some m), ts5)
      | _ =>
          let* ts3 := expect_newline ts2 in Parsed (Assert e None, ts3)
      end
  | _ =>
      let* (e, ts1) := parse_expr f ts in
      match ts1 with
      | OP EQUAL :: ts2 =>
          if is_target e then
            let* (v, ts3) := parse_expr f ts2 in
            let* ts4 := expect_newline ts3 in Parsed (Assign e v, ts4)
          else SyntaxError "cannot assign to expression"
      | _ =>
          let* ts2 := expect_newline ts1 in Parsed (Expr e, ts2)
      end
  end.

Fixpoint parse_stmt (fuel : nat) (ts : list token) {struct fuel}
  : result (stmt * list token) :=
  match fuel with
  | O => exhausted
  | S f =>
      (* an indented block: NEWLINE INDENT statement+ DEDENT *)
      let block (ts0 : list token) : result (list stmt * list token) :=
        match ts0 with
        | NEWLINE :: INDENT :: ts1 =>
            let* (ss, ts2) := parse_stmts f ts1 in
            match ss, ts2 with
            | _ :: _, DEDENT :: ts3 => Parsed (ss, ts3)
            | _, _ => invalid
            end
        | NEWLINE :: _ => SyntaxError "expected an indented block"
        | _ => invalid
        end in
      let definition (decs : list expr) (ts0 : list token) :=
        match ts0 with
        | KW kw_class :: NAME c :: OP COLON :: ts1 =>
            let* (body, ts2) := block ts1 in
            Parsed (ClassDef c decs body, ts2)
        | KW kw_def :: NAME fn :: OP LPAR :: ts1 =>
            let* (ps, ts2) := parse_params ts1 in
            let* ts3 := expect COLON ts2 in
            let* (body, ts4) := block ts3 in
            Parsed (FunctionDef false fn ps decs body, ts4)
        | KW kw_async :: KW kw_def :: NAME fn :: OP LPAR :: ts1 =>
            let* (ps, ts2) := parse_params ts1 in
            let* ts3 := expect COLON ts2 in
            let* (body, ts4) := block ts3 in
            Parsed (FunctionDef true fn ps decs body, ts4)
        | _ => invalid
        end in
      match ts with
      | OP AT :: _ =>
          let* (decs, ts1) := parse_decorators f ts in
          definition decs ts1
      | KW kw_class :: _ | KW kw_def :: _ | KW kw_async :: _ =>
          definition [] ts
      | KW kw_with :: ts1 =>
          let* (items, ts2) := parse_with_items f ts1 in
          let* ts3 := expect COLON ts2 in
          let* (body, ts4) := block ts3 in
          Parsed (With items body, ts4)
      | _ => parse_simple f ts
      end
  end

(** The statements of a block or of the module, up to the [DEDENT] or the
    [ENDMARKER] that ends it (left unread). *)
with parse_stmts (fuel : nat) (ts : list token) {struct fuel}
  : result (list stmt * list token) :=
  match fuel with
  | O => exhausted
  | S f =>
      match ts with
      | DEDENT :: _ | ENDMARKER :: _ => Parsed ([], ts)
      | _ =>
          let* (s, ts1) := parse_stmt f ts in
          let* (ss, ts2) := parse_stmts f ts1 in
          Parsed (s :: ss, ts2)
      end
  end.

(** The depth of the calls is at most a few levels per token. *)
Definition fuel_for (ts : list token) : nat := 8 * length ts + 8.

Definition parse_module (ts : list token) : result (list stmt) :=
  let* (ss, rest) := parse_stmts (fuel_for ts) ts in
  match rest with
  | [ENDMARKER] => Parsed ss
  | _ => invalid
  end.

End Parser.

(** ** Checks on the syntax tree

    What Python's compiler reports as a [SyntaxError] after parsing:
    [return] outside a function, [await] outside an [async] function, a
    parameter named twice, a binding of [__debug__], and more than twenty
    statically nested blocks. *)

Module Check.
Import Lexer Ast.

Fixpoint no_dup (l : list string) : bool :=
  match l with
  | [] => true
  | x :: l' => negb (mem_string x l') && no_dup l'
  end.

Definition bindable (x : string) : bool := negb (String.eqb x "__debug__").

Definition max_blocks : nat := 20.

Fixpoint check_expr (in_async : bool) (e : expr) {struct e} : bool :=
  match e with
  | Name _ | Num _ | Str _ | Constant _ => true
  | Attribute v _ => check_expr in_async v
  | Subscript v i => check_expr in_async v && check_expr in_async i
  | Call f args kws =>
      check_expr in_async f
      && forallb (check_expr in_async) args
      && forallb (fun kw => bindable (fst kw) && check_expr in_async (snd kw)) kws
  | Tuple es | ListDisplay es => forallb (check_expr in_async) es
  | Dict kvs =>
      forallb (fun kv => check_expr in_async (fst kv)
                         && check_expr in_async (snd kv)) kvs
  | Compare l rest =>
      check_expr in_async l
      && forallb (fun oc => check_expr in_async (snd oc)) rest
  | Neg v => check_expr in_async v
  | Await v => in_async && check_expr in_async v
  end.

Definition check_target (e : expr) : bool :=
  match e with
  | Name x => bindable x
  | Attribute _ a => bindable a
  | _ => true
  end.

Definition check_opt (in_async : bool) (o : option expr) : bool :=
  match o with
  | Some e => check_expr in_async e
  | None => true
  end.

(** [in_func]: inside a function body; [in_async]: that function is
    [async]; [blocks]: the [with] blocks open around the statement. *)
Fixpoint check_stmt (in_func in_async : bool) (blocks : nat) (s : stmt)
  {struct s} : bool :=
  match s with
  | Import m => forallb bindable m
  | ImportFrom _ names => forallb bindable names
  | ClassDef c decs body =>
      bindable c
      && forallb (check_expr in_async) decs
      && forallb (check_stmt false false 0) body
  | FunctionDef a fn ps decs body =>
      bindable fn
      && forallb bindable ps && no_dup ps
      && forallb (check_expr in_async) decs
      && forallb (check_stmt true a 0) body
  | Assign t v =>
      check_target t && check_expr in_async t && check_expr in_async v
  | Expr e => check_expr in_async e
  | Assert t m => check_expr in_async t && check_opt in_async m
  | Pass => true
  | Return v => in_func && check_opt in_async v
  | With items body =>
      Nat.ltb blocks max_blocks
      && forallb (fun it => check_expr in_async (fst it)
                            && match snd it with
                               | Some x => bindable x
                               | None => true
                               end) items
      && forallb (check_stmt in_func in_async (S blocks)) body
  end.

Definition check_module (m : list stmt) : bool :=
  forallb (check_stmt false false 0) m.

End Check.

(** ** The syntax checker *)

(** The text is tokenized, parsed and checked; the outcome is its syntax
    tree or a syntax error. *)
Definition syntax_check (text : string) : result (list Ast.stmt) :=
  let* ts := Lexer.tokenize text in
  let* m := Parser.parse_module ts in
  if Check.check_module m then Parsed m
  else SyntaxError "rejected by the compiler's checks".

(** ** The syntax tree of the template

    The tree of the document, class by class and method by method, under
    the names the source gives them.  [template_parses] below proves that
    the syntax checker yields exactly this tree from the text. *)

Module Source.
Import Ast.
#[local] Open Scope N_scope.

(** Lines 9-16. *)
Definition setup_method : stmt :=
  FunctionDef false "setup_method"
    ["self"]
    []
    [Expr (Str "Set up test fixtures before each test method.");
     Assign (Attribute (Name "self") "test_data")
       (Dict
          [(Str "id", Num 1);
           (Str "name", Str "Test Entity");
           (Str "value", Num 100)])].

(** Lines 18-21. *)
Definition teardown_method : stmt :=
  FunctionDef false "teardown_method"
    ["self"]
    []
    [Expr (Str "Clean up after each test method."); Pass].

(** Lines 23-34. *)
Definition test_should_expected_behavior_when_valid_input : stmt :=
  FunctionDef false "test_should_expected_behavior_when_valid_input"
    ["self"]
    []
    [Expr
       (Str "Test that function returns expected result with valid input.");
     Assign (Name "input_data") (Attribute (Name "self") "test_data");
     Assign (Name "result")
       (Call (Name "function_under_test") [Name "input_data"] []);
     Assert (Compare (Name "result") [(IsNot, Constant CNone)]) None;
     Assert
       (Compare (Subscript (Name "result") (Str "success"))
          [(Is, Constant CTrue)])
       None;
     Assert
       (Compare (Subscript (Name "result") (Str "data"))
          [(Eq, Name "input_data")])
       None].

(** Lines 36-43. *)
Definition test_should_raise_error_when_invalid_input : stmt :=
  FunctionDef false "test_should_raise_error_when_invalid_input"
    ["self"]
    []
    [Expr
       (Str "Test that function raises appropriate error with invalid input.");
     Assign (Name "invalid_input") (Constant CNone);
     With
       [(Call (Attribute (Name "pytest") "raises")
           [Name "ValueError"]
           [("match", Str "Expected error message")],
         None)]
       [Expr (Call (Name "function_under_test") [Name "invalid_input"] [])]].

(** Lines 45-54. *)
Definition test_should_handle_edge_case_when_empty_input : stmt :=
  FunctionDef false "test_should_handle_edge_case_when_empty_input"
    ["self"]
    []
    [Expr (Str "Test that function handles empty input correctly.");
     Assign (Name "empty_input") (Dict []);
     Assign (Name "result")
       (Call (Name "function_under_test") [Name "empty_input"] []);
     Assert (Compare (Name "result") [(Eq, Name "expected_default_value")]) None].

(** Lines 56-70. *)
Definition test_should_calculate_correctly_when_given_values : stmt :=
  FunctionDef false "test_should_calculate_correctly_when_given_values"
    ["self"; "input_value"; "expected_output"]
    [Call (Attribute (Attribute (Name "pytest") "mark") "parametrize")
       [Str "input_value,expected_output";
        ListDisplay
          [Tuple [Num 10; Num 20];
           Tuple [Num 50; Num 100];
           Tuple [Num 0; Num 0];
           Tuple [Neg (Num 5); Neg (Num 10)]]]
       []]
    [Expr (Str "Test calculation with various input values.");
     Assign (Name "result")
       (Call (Name "calculate_function") [Name "input_value"] []);
     Assert (Compare (Name "result") [(Eq, Name "expected_output")]) None].

(** Lines 6-70. *)
Definition TestClassOrFunctionName : stmt :=
  ClassDef "TestClassOrFunctionName"
    []
    [Expr (Str "Test suite for ClassOrFunctionName functionality.");
     setup_method;
     teardown_method;
     test_should_expected_behavior_when_valid_input;
     test_should_raise_error_when_invalid_input;
     test_should_handle_edge_case_when_empty_input;
     test_should_calculate_correctly_when_given_values].

(** Lines 76-82. *)
Definition mock_database : stmt :=
  FunctionDef false "mock_database"
    ["self"]
    [Attribute (Name "pytest") "fixture"]
    [Expr (Str "Mock database dependency.");
     Assign (Name "db") (Call (Name "Mock") [] []);
     Assign (Attribute (Attribute (Name "db") "query") "return_value")
       (ListDisplay [Dict [(Str "id", Num 1); (Str "name", Str "Test")]]);
     Assign (Attribute (Attribute (Name "db") "execute") "return_value")
       (Constant CTrue);
     Return (Some (Name "db"))].

(** Lines 84-87. *)
Definition service_instance : stmt :=
  FunctionDef false "service_instance"
    ["self"; "mock_database"]
    [Attribute (Name "pytest") "fixture"]
    [Expr (Str "Create service instance with mocked dependencies.");
     Return
       (Some
          (Call (Name "ServiceClass")
             []
             [("database", Name "mock_database")]))].

(** Lines 89-104. *)
Definition test_should_fetch_data_when_id_provided : stmt :=
  FunctionDef false "test_should_fetch_data_when_id_provided"
    ["self"; "service_instance"; "mock_database"]
    []
    [Expr (Str "Test that service fetches data from database.");
     Assign (Name "entity_id") (Num 1);
     Assign (Name "result")
       (Call (Attribute (Name "service_instance") "get_by_id")
          [Name "entity_id"]
          []);
     Assert (Compare (Name "result") [(IsNot, Constant CNone)]) None;
     Assert
       (Compare (Subscript (Name "result") (Str "id"))
          [(Eq, Name "entity_id")])
       None;
     Expr
       (Call
          (Attribute (Attribute (Name "mock_database") "query") "assert_called_once_with")
          [Str "SELECT * FROM table WHERE id = %s"; Tuple [Name "entity_id"]]
          [])].

(** Lines 106-118. *)
Definition test_should_create_entity_when_valid_data : stmt :=
  FunctionDef false "test_should_create_entity_when_valid_data"
    ["self"; "service_instance"; "mock_database"]
    []
    [Expr (Str "Test that service creates entity successfully.");
     Assign (Name "new_entity")
       (Dict [(Str "name", Str "New Entity"); (Str "value", Num 50)]);
     Assign (Name "result")
       (Call (Attribute (Name "service_instance") "create")
          [Name "new_entity"]
          []);
     Assert
       (Compare (Subscript (Name "result") (Str "success"))
          [(Is, Constant CTrue)])
       None;
     Expr
       (Call
          (Attribute (Attribute (Name "mock_database") "execute") "assert_called_once")
          []
          [])].

(** Lines 73-118. *)
Definition TestClassWithDependencies : stmt :=
  ClassDef "TestClassWithDependencies"
    []
    [Expr (Str "Test suite for class with external dependencies.");
     mock_database;
     service_instance;
     test_should_fetch_data_when_id_provided;
     test_should_create_entity_when_valid_data].

(** Lines 124-138. *)
Definition test_should_fetch_data_when_api_call_succeeds : stmt :=
  FunctionDef true "test_should_fetch_data_when_api_call_succeeds"
    ["self"]
    [Attribute (Attribute (Name "pytest") "mark") "asyncio"]
    [Expr (Str "Test async API call with successful response.");
     Assign (Name "mock_response")
       (Dict [(Str "id", Num 1); (Str "data", Str "test")]);
     With
       [(Call (Name "patch") [Str "module.api_client"] [], Some "mock_api")]
       [Assign (Attribute (Attribute (Name "mock_api") "get") "return_value")
          (Name "mock_response");
        Assign (Name "result")
          (Await (Call (Name "async_function_under_test") [Num 1] []));
        Assert (Compare (Name "result") [(Eq, Name "mock_response")]) None;
        Expr
          (Call
             (Attribute (Attribute (Name "mock_api") "get") "assert_called_once_with")
             [Num 1]
             [])]].

(** Lines 140-149. *)
Definition test_should_handle_error_when_api_call_fails : stmt :=
  FunctionDef true "test_should_handle_error_when_api_call_fails"
    ["self"]
    [Attribute (Attribute (Name "pytest") "mark") "asyncio"]
    [Expr (Str "Test async function handles API errors.");
     With
       [(Call (Name "patch") [Str "module.api_client"] [], Some "mock_api")]
       [Assign (Attribute (Attribute (Name "mock_api") "get") "side_effect")
          (Call (Name "ConnectionError") [Str "API unavailable"] []);
        With
          [(Call (Attribute (Name "pytest") "raises")
              [Name "ConnectionError"]
              [],
            None)]
          [Expr
             (Await (Call (Name "async_function_under_test") [Num 1] []))]]].

(** Lines 121-149. *)
Definition TestAsyncOperations : stmt :=
  ClassDef "TestAsyncOperations"
    []
    [Expr (Str "Test suite for async functions.");
     test_should_fetch_data_when_api_call_succeeds;
     test_should_handle_error_when_api_call_fails].

(** Lines 155-168. *)
Definition test_should_create_entity_when_valid_input : stmt :=
  FunctionDef false "test_should_create_entity_when_valid_input"
    ["self"]
    []
    [Expr (Str "Test entity creation with valid data.");
     Assign (Name "title") (Str "Test Title");
     Assign (Name "content") (Str "Test Content");
     Assign (Name "entity")
       (Call (Attribute (Name "DomainEntity") "create")
          [Name "title"; Name "content"]
          []);
     Assert
       (Compare (Attribute (Name "entity") "id") [(IsNot, Constant CNone)])
       None;
     Assert (Compare (Attribute (Name "entity") "title") [(Eq, Name "title")]) None;
     Assert
       (Compare (Attribute (Name "entity") "content") [(Eq, Name "content")])
       None;
     Assert (Compare (Attribute (Name "entity") "status") [(Eq, Str "draft")]) None].

(** Lines 170-178. *)
Definition test_should_raise_domain_error_when_invalid_business_rule : stmt :=
  FunctionDef false "test_should_raise_domain_error_when_invalid_business_rule"
    ["self"]
    []
    [Expr (Str "Test that entity enforces business rules.");
     Assign (Name "entity")
       (Call (Attribute (Name "DomainEntity") "create")
          [Str "Title"; Str "Content"]
          []);
     With
       [(Call (Attribute (Name "pytest") "raises")
           [Name "DomainError"]
           [("match", Str "Cannot publish without tags")],
         None)]
       [Expr (Call (Attribute (Name "entity") "publish") [] [])]].

(** Lines 180-193. *)
Definition test_should_apply_business_logic_when_method_called : stmt :=
  FunctionDef false "test_should_apply_business_logic_when_method_called"
    ["self"]
    []
    [Expr (Str "Test entity business logic.");
     Assign (Name "entity")
       (Call (Attribute (Name "DomainEntity") "create")
          [Str "Title"; Str "Content"]
          []);
     Expr (Call (Attribute (Name "entity") "add_tag") [Str "test"] []);
     Expr (Call (Attribute (Name "entity") "publish") [] []);
     Assert
       (Compare (Attribute (Name "entity") "status") [(Eq, Str "published")])
       None;
     Assert
       (Compare (Attribute (Name "entity") "published_at")
          [(IsNot, Constant CNone)])
       None;
     Assert
       (Compare
          (Call (Name "len")
             [Call (Attribute (Name "entity") "get_events") [] []]
             [])
          [(Eq, Num 1)])
       None;
     Assert
       (Call (Name "isinstance")
          [Subscript (Call (Attribute (Name "entity") "get_events") [] [])
             (Num 0);
           Name "EntityPublishedEvent"]
          [])
       None].

(** Lines 152-193. *)
Definition TestDomainEntity : stmt :=
  ClassDef "TestDomainEntity"
    []
    [Expr (Str "Test suite for domain entity business logic.");
     test_should_create_entity_when_valid_input;
     test_should_raise_domain_error_when_invalid_business_rule;
     test_should_apply_business_logic_when_method_called].

(** The module: the three imports of lines 1-3 and the four classes. *)
Definition template_module : list stmt :=
  [Import ["pytest"];
   ImportFrom ["unittest"; "mock"] ["Mock"; "patch"; "MagicMock"];
   ImportFrom ["module_name"] ["ClassOrFunctionName"];
   TestClassOrFunctionName;
   TestClassWithDependencies;
   TestAsyncOperations;
   TestDomainEntity].

End Source.

(** ** Structure of a module: sections, examples, names *)

Module Analysis.
Import Lexer Ast.
#[local] Open Scope list_scope.

(** *** Sections and examples

    A section of the template is a class at the top level of the module;
    its title is the docstring of the class, its examples are its test
    methods. *)

Definition is_class (s : stmt) : bool :=
  match s with ClassDef _ _ _ => true | _ => false end.

Definition is_function (s : stmt) : bool :=
  match s with FunctionDef _ _ _ _ _ => true | _ => false end.

Definition is_import (s : stmt) : bool :=
  match s with Import _ | ImportFrom _ _ => true | _ => false end.

Definition stmt_name (s : stmt) : string :=
  match s with
  | ClassDef c _ _ => c
  | FunctionDef _ fn _ _ _ => fn
  | _ => EmptyString
  end.

Definition body_of (s : stmt) : list stmt :=
  match s with
  | ClassDef _ _ body | FunctionDef _ _ _ _ body => body
  | _ => []
  end.

Definition params_of (s : stmt) : list string :=
  match s with
  | FunctionDef _ _ ps _ _ => ps
  | _ => []
  end.

Definition decorators_of (s : stmt) : list expr :=
  match s with
  | ClassDef _ decs _ | FunctionDef _ _ _ decs _ => decs
  | _ => []
  end.

Definition docstring (body : list stmt) : option string :=
  match body with
  | Expr (Str d) :: _ => Some d
  | _ => None
  end.

(** The statements of a body after its docstring. *)
Definition code_of (body : list stmt) : list stmt :=
  match body with
  | Expr (Str _) :: rest => rest
  | _ => body
  end.

Definition classes (m : list stmt) : list stmt := List.filter is_class m.

Definition methods (c : stmt) : list stmt := List.filter is_function (body_of c).

(** pytest collects the classes named [Test...] and, in them, the
    methods named [test_...]. *)
Definition is_test_method (s : stmt) : bool :=
  is_function s && String.prefix "test_" (stmt_name s).

Definition test_methods (c : stmt) : list stmt :=
  List.filter is_test_method (body_of c).

(** The example statements of a section: the code of its test methods. *)
Definition example_statements (c : stmt) : list stmt :=
  flat_map (fun t => code_of (body_of t)) (test_methods c).

Definition is_async_def (s : stmt) : bool :=
  match s with FunctionDef true _ _ _ _ => true | _ => false end.

(** A method decorated with [@pytest.fixture]. *)
Definition is_fixture (s : stmt) : bool :=
  existsb (fun d =>
             match d with
             | Attribute (Name p) a =>
                 String.eqb p "pytest" && String.eqb a "fixture"
             | _ => false
             end) (decorators_of s).

(** *** Names read and names bound *)

(** The names an expression reads. *)
Fixpoint expr_names (e : expr) {struct e} : list string :=
  match e with
  | Name x => [x]
  | Num _ | Str _ | Constant _ => []
  | Attribute v _ => expr_names v
  | Subscript v i => expr_names v ++ expr_names i
  | Call f args kws =>
      expr_names f ++ flat_map expr_names args
      ++ flat_map (fun kw => expr_names (snd kw)) kws
  | Tuple es | ListDisplay es => flat_map expr_names es
  | Dict kvs =>
      flat_map (fun kv => expr_names (fst kv) ++ expr_names (snd kv)) kvs
  | Compare l rest =>
      expr_names l ++ flat_map (fun oc => expr_names (snd oc)) rest
  | Neg v | Await v => expr_names v
  end.

Definition opt_names (o : option expr) : list string :=
  match o with
  | Some e => expr_names e
  | None => []
  end.

(** The names a statement references (reads), in the order of the text;
    the name on the left of an assignment is bound, not read. *)
Fixpoint stmt_refs (s : stmt) {struct s} : list string :=
  match s with
  | Import _ | ImportFrom _ _ | Pass => []
  | ClassDef _ decs body | FunctionDef _ _ _ decs body =>
      flat_map expr_names decs ++ flat_map stmt_refs body
  | Assign (Name _) v => expr_names v
  | Assign t v => expr_names t ++ expr_names v
  | Expr e => expr_names e
  | Assert t m => expr_names t ++ opt_names m
  | Return v => opt_names v
  | With items body =>
      flat_map (fun it => expr_names (fst it)) items
      ++ flat_map stmt_refs body
  end.

(** The names a statement defines (binds), in whatever scope: imported
    names, classes, functions and their parameters, assigned names and
    the targets of [with ... as]. *)
Fixpoint stmt_defs (s : stmt) {struct s} : list string :=
  match s with
  | Import m => firstn 1 m
  | ImportFrom _ names => names
  | ClassDef c _ body => c :: flat_map stmt_defs body
  | FunctionDef _ fn ps _ body => fn :: ps ++ flat_map stmt_defs body
  | Assign (Name x) _ => [x]
  | With items body =>
      flat_map (fun it => match snd it with
                          | Some x => [x]
                          | None => []
                          end) items
      ++ flat_map stmt_defs body
  | _ => []
  end.

Definition referenced_names (m : list stmt) : list string :=
  flat_map stmt_refs m.

Definition defined_names (m : list stmt) : list string :=
  flat_map stmt_defs m.

(** The names of Python's [builtins] module. *)
Definition builtins : list string :=
  [ "ArithmeticError"; "AssertionError"; "AttributeError"; "BaseException";
    "BaseExceptionGroup"; "BlockingIOError"; "BrokenPipeError"; "BufferError";
    "BytesWarning"; "ChildProcessError"; "ConnectionAbortedError";
    "ConnectionError"; "ConnectionRefusedError"; "ConnectionResetError";
    "DeprecationWarning"; "EOFError"; "Ellipsis"; "EncodingWarning";
    "EnvironmentError"; "Exception"; "ExceptionGroup"; "FileExistsError";
    "FileNotFoundError"; "FloatingPointError"; "FutureWarning";
    "GeneratorExit"; "IOError"; "ImportError"; "ImportWarning";
    "IndentationError"; "IndexError"; "InterruptedError";
    "IsADirectoryError"; "KeyError"; "KeyboardInterrupt"; "LookupError";
    "MemoryError"; "ModuleNotFoundError"; "NameError"; "NotADirectoryError";
    "NotImplemented"; "NotImplementedError"; "OSError"; "OverflowError";
    "PendingDeprecationWarning"; "PermissionError"; "ProcessLookupError";
    "RecursionError"; "ReferenceError"; "ResourceWarning"; "RuntimeError";
    "RuntimeWarning"; "StopAsyncIteration"; "StopIteration"; "SyntaxError";
    "SyntaxWarning"; "SystemError"; "SystemExit"; "TabError"; "TimeoutError";
    "TypeError"; "UnboundLocalError"; "UnicodeDecodeError";
    "UnicodeEncodeError"; "UnicodeError"; "UnicodeTranslateError";
    "UnicodeWarning"; "UserWarning"; "ValueError"; "Warning";
    "ZeroDivisionError"; "abs"; "aiter"; "all"; "anext"; "any"; "ascii";
    "bin"; "bool"; "breakpoint"; "bytearray"; "bytes"; "callable"; "chr";
    "classmethod"; "compile"; "complex"; "copyright"; "credits"; "delattr";
    "dict"; "dir"; "divmod"; "enumerate"; "eval"; "exec"; "exit"; "filter";
    "float"; "format"; "frozenset"; "getattr"; "globals"; "hasattr"; "hash";
    "help"; "hex"; "id"; "input"; "int"; "isinstance"; "issubclass"; "iter";
    "len"; "license"; "list"; "locals"; "map"; "max"; "memoryview"; "min";
    "next"; "object"; "oct"; "open"; "ord"; "pow"; "print"; "property";
    "quit"; "range"; "repr"; "reversed"; "round"; "set"; "setattr"; "slice";
    "sorted"; "staticmethod"; "str"; "sum"; "super"; "tuple"; "type"; "vars";
    "zip" ].

(** The elements of [l] without repetition, each at its first place. *)
Fixpoint dedup (seen : list string) (l : list string) : list string :=
  match l with
  | [] => []
  | x :: l' =>
      if mem_string x seen then dedup seen l'
      else x :: dedup (x :: seen) l'
  end.

(** The names a module references that nothing in it defines and that
    are no builtins: they resolve to nothing when the code runs. *)
Definition unresolved_names (m : list stmt) : list string :=
  dedup []
    (List.filter
       (fun x => negb (mem_string x (defined_names m))
                 && negb (mem_string x builtins))
       (referenced_names m)).

(** An example (a test method of the class [c]) reaches the names it
    reads itself and those the fixtures it requests read: pytest passes
    a fixture to the test whose parameter bears its name. *)
Definition requested_fixtures (c t : stmt) : list stmt :=
  List.filter (fun f => is_fixture f
                        && mem_string (stmt_name f) (params_of t))
    (body_of c).

Definition example_refs (c t : stmt) : list string :=
  stmt_refs t ++ flat_map stmt_refs (requested_fixtures c t).

(** The placeholder symbols the examples reference, in the order of
    their first use. *)
Definition placeholders : list string :=
  [ "function_under_test"; "expected_default_value"; "calculate_function";
    "ServiceClass"; "async_function_under_test"; "DomainEntity";
    "DomainError"; "EntityPublishedEvent" ].

(** The four sections: the classes of the template, by name and title. *)
Definition section_names : list string :=
  [ "TestClassOrFunctionName"; "TestClassWithDependencies";
    "TestAsyncOperations"; "TestDomainEntity" ].

Definition section_titles : list (option string) :=
  [ Some "Test suite for ClassOrFunctionName functionality.";
    Some "Test suite for class with external dependencies.";
    Some "Test suite for async functions.";
    Some "Test suite for domain entity business logic." ].

(** *** Imports *)

(** The import statements of a module, [import a.b] as well as [from a.b
    import x, y]: the module path and the names the statement binds. *)
Definition imports (m : list stmt) : list (list string * list string) :=
  flat_map (fun s => match s with
                     | Import md => [(md, firstn 1 md)]
                     | ImportFrom md names => [(md, names)]
                     | _ => []
                     end) m.

(** The packages the template imports that are no part of a project:
    pytest and the standard library's unittest. *)
Definition library_packages : list string := [ "pytest"; "unittest" ].

Definition is_project_module (md : list string) : bool :=
  negb (mem_string (hd EmptyString md) library_packages).

(** The imports of project symbols. *)
Definition project_imports (m : list stmt)
  : list (list string * list string) :=
  List.filter (fun i => is_project_module (fst i)) (imports m).

(** How many times the identifier [x] stands in a token stream. *)
Definition count_name (x : string) (ts : list token) : nat :=
  length (List.filter (fun t => match t with
                                | NAME y => String.eqb x y
                                | _ => false
                                end) ts).

(** *** Lines *)

(** The numbered lines (from 1) that open a class at the top level. *)
Fixpoint class_headers (n : nat) (ls : list string) : list (nat * string) :=
  match ls with
  | [] => []
  | l :: ls' =>
      if String.prefix "class " l then (n, l) :: class_headers (S n) ls'
      else class_headers (S n) ls'
  end.

(** A number rounded to the nearest ten. *)
Definition round_to_ten (n : nat) : nat := 10 * ((n + 5) / 10).

End Analysis.

(** ** The Template Provider *)

Module Provider.
Import Template.

(** The repository: its one file, under its path. *)
Definition repository : gmap string string :=
  {[ template_path := template_text ]}.

(** Modelled from the spec: the operation [get_template() -> Text] of the
    Template Provider (section 4.1), which the repository does not
    implement: the artifact is the file itself and retrieving it is
    reading the file.  The operation takes the store of files and returns
    the text found under the template's path together with the store. *)
Definition get_template (files : gmap string string)
  : option string * gmap string string :=
  (files !! template_path, files).

(** Modelled from the spec: the operations of the system; the spec names
    one, [get_template]. *)
Inductive operation : Type := GetTemplate.

Definition perform (op : operation) (files : gmap string string)
  : option string * gmap string string :=
  match op with
  | GetTemplate => get_template files
  end.

(** A sequence of operations, each on the store the one before left;
    the results in order, and the final store. *)
Fixpoint run (ops : list operation) (files : gmap string string)
  : list (option string) * gmap string string :=
  match ops with
  | [] => ([], files)
  | op :: ops' =>
      let (out, files1) := perform op files in
      let (outs, files2) := run ops' files1 in
      (out :: outs, files2)
  end.

(** A name is defined in the repository when the syntax tree of one of
    its files defines it. *)
Definition defined_in (files : gmap string string) (x : string) : Prop :=
  exists (path text : string) (m : list Ast.stmt),
    files !! path = Some text
    /\ syntax_check text = Parsed m
    /\ In x (Analysis.defined_names m).

End Provider.

(** ** How pytest wires the examples

    What pytest needs of the template once it is copied into a test
    file: fixtures for the parameters of the tests, [parametrize] tables
    that fit the tests they decorate, the [asyncio] mark on coroutine
    tests, an assertion in every test.  The checks read the syntax tree
    of a module and are not specific to the template. *)

Module Wiring.
Import Lexer Ast Analysis.
#[local] Open Scope list_scope.

(** The expression [pytest.mark.<mark>]. *)
Definition is_mark (mark : string) (e : expr) : bool :=
  match e with
  | Attribute (Attribute (Name p) m) k =>
      String.eqb p "pytest" && String.eqb m "mark" && String.eqb k mark
  | _ => false
  end.

(** A function decorated with [@pytest.mark.<mark>], called or not. *)
Definition has_mark (mark : string) (f : stmt) : bool :=
  existsb (fun d => is_mark mark d
                    || match d with
                       | Call g _ _ => is_mark mark g
                       | _ => false
                       end) (decorators_of f).

(** *** Argument names of [parametrize] *)

(** A string cut at its commas. *)
Fixpoint split_commas (s : string) : list string :=
  match s with
  | EmptyString => [EmptyString]
  | String c s' =>
      if is_char 44 c then EmptyString :: split_commas s'
      else match split_commas s' with
           | w :: ws => String c w :: ws
           | [] => [String c EmptyString]
           end
  end.

Fixpoint lstrip (s : string) : string :=
  match s with
  | String c s' => if is_char 32 c then lstrip s' else s
  | EmptyString => EmptyString
  end.

(** A string without its trailing blanks. *)
Fixpoint rstrip (s : string) : string :=
  match s with
  | String c s' =>
      match rstrip s' with
      | EmptyString => if is_char 32 c then EmptyString else String c EmptyString
      | r => String c r
      end
  | EmptyString => EmptyString
  end.

Definition strip (s : string) : string := rstrip (lstrip s).

Definition nonempty (s : string) : bool :=
  match s with EmptyString => false | _ => true end.

(** pytest reads the names of a [parametrize] mark from one string: the
    pieces between commas, stripped, the empty ones left out. *)
Definition argnames (s : string) : list string :=
  List.filter nonempty (map strip (split_commas s)).

(** The names and the rows of [@pytest.mark.parametrize(names, [rows])]. *)
Definition parametrize_of (d : expr) : option (list string * list expr) :=
  match d with
  | Call g [Str names; ListDisplay rows] [] =>
      if is_mark "parametrize" g then Some (argnames names, rows) else None
  | _ => None
  end.

Definition is_parametrize (d : expr) : bool :=
  match d with
  | Call g _ _ => is_mark "parametrize" g
  | _ => false
  end.

(** The names the [parametrize] marks of a function supply. *)
Definition parametrized_names (f : stmt) : list string :=
  flat_map (fun d => match parametrize_of d with
                     | Some (names, _) => names
                     | None => []
                     end) (decorators_of f).

(** A row gives one value per name: with several names it is a tuple or
    a list of that many elements. *)
Definition row_fits (n : nat) (row : expr) : bool :=
  if Nat.eqb n 1 then true
  else match row with
       | Tuple es | ListDisplay es => Nat.eqb (length es) n
       | _ => false
       end.

(** The [parametrize] marks of a function fit it: each names at least
    one argument, each name is a parameter of the function, and each row
    has as many values as there are names. *)
Definition parametrize_fits (f : stmt) : bool :=
  forallb (fun d =>
             match parametrize_of d with
             | Some (names, rows) =>
                 negb (Nat.eqb (length names) 0)
                 && forallb (fun n => mem_string n (params_of f)) names
                 && forallb (row_fits (length names)) rows
             | None => negb (is_parametrize d)
             end) (decorators_of f).

(** *** Fixtures *)

Definition fixtures (c : stmt) : list stmt := List.filter is_fixture (methods c).

(** What a method asks pytest for: its parameters after [self]. *)
Definition requests (f : stmt) : list string := tl (params_of f).

(** A method of the class [c] is wired when its first parameter is
    [self] and every other one is a fixture of the class or a name that
    a [parametrize] mark of the method supplies. *)
Definition wired (c f : stmt) : bool :=
  match params_of f with
  | self :: ps =>
      String.eqb self "self"
      && forallb (fun p => mem_string p (map stmt_name (fixtures c))
                           || mem_string p (parametrized_names f)) ps
  | [] => false
  end.

(** The fixture named [from] requests [target], itself or through at
    most [fuel] fixtures. *)
Fixpoint reaches (fuel : nat) (c : stmt) (from target : string) : bool :=
  match fuel with
  | O => false
  | S n =>
      existsb (fun f =>
                 String.eqb (stmt_name f) from
                 && existsb (fun p => String.eqb p target
                                      || reaches n c p target) (requests f))
        (fixtures c)
  end.

(** No fixture of the class requests itself, directly or not. *)
Definition acyclic (c : stmt) : bool :=
  forallb (fun f => negb (reaches (length (fixtures c)) c
                            (stmt_name f) (stmt_name f)))
    (fixtures c).

(** *** Assertions *)

(** A call of a mock's [assert_...] method. *)
Definition is_mock_assert (e : expr) : bool :=
  match e with
  | Call (Attribute _ a) _ _ => String.prefix "assert_" a
  | _ => false
  end.

(** A call of [pytest.raises]. *)
Definition is_raises (e : expr) : bool :=
  match e with
  | Call (Attribute (Name p) r) _ _ =>
      String.eqb p "pytest" && String.eqb r "raises"
  | _ => false
  end.

(** The statement checks something: an [assert], a mock's [assert_...]
    call, or a [with pytest.raises(...)] block; also inside a [with]. *)
Fixpoint asserts (s : stmt) {struct s} : bool :=
  match s with
  | Assert _ _ => true
  | Expr e => is_mock_assert e
  | With items body =>
      existsb (fun it => is_raises (fst it)) items || existsb asserts body
  | _ => false
  end.

(** *** Imports *)

Definition imported_names (m : list stmt) : list string :=
  flat_map (fun s => match s with
                     | Import md => firstn 1 md
                     | ImportFrom _ names => names
                     | _ => []
                     end) m.

(** The imported names that no statement of the module references. *)
Definition unused_imports (m : list stmt) : list string :=
  List.filter (fun x => negb (mem_string x (referenced_names m)))
    (imported_names m).

(** *** Layout of the text *)

(** Indented by a multiple of four blanks, at most [width] characters
    long, no blank at the end. *)
Definition line_tidy (width : nat) (l : string) : bool :=
  Nat.eqb (Nat.modulo (fst (count_indent l)) 4) 0
  && Nat.leb (String.length l) width
  && String.eqb (rstrip l) l.

(** *** Arrange, Act, Assert *)

(** The comments that mark the steps of a test. *)
Inductive step : Type := Arrange | Act | ActAndAssert | AssertStep.

Definition step_of (line : string) : option step :=
  let b := lstrip line in
  if String.prefix "# Act & Assert" b then Some ActAndAssert
  else if String.prefix "# Arrange" b then Some Arrange
  else if String.prefix "# Act" b then Some Act
  else if String.prefix "# Assert" b then Some AssertStep
  else None.

Definition is_def_line (line : string) : bool :=
  let b := lstrip line in
  String.prefix "def " b || String.prefix "async def " b.

Definition is_test_line (line : string) : bool :=
  let b := lstrip line in
  String.prefix "def test_" b || String.prefix "async def test_" b.

(** [scan_steps ls]: the steps marked in [ls] before the first function
    header, and for each function header of [ls], in order, the header
    with the steps marked between it and the next header (or the next
    class, or the end). *)
Fixpoint scan_steps (ls : list string)
  : list step * list (string * list step) :=
  match ls with
  | [] => ([], [])
  | l :: ls' =>
      let (acc, out) := scan_steps ls' in
      if is_def_line l then ([], (lstrip l, acc) :: out)
      else if String.prefix "class " l then ([], out)
      else match step_of l with
           | Some k => (k :: acc, out)
           | None => (acc, out)
           end
  end.

(** The steps of each test, in the order of the file. *)
Definition test_steps (ls : list string) : list (string * list step) :=
  List.filter (fun hs => is_test_line (fst hs)) (snd (scan_steps ls)).

(** Arrange (if any), then Act, then Assert; Act and Assert may be one
    step. *)
Definition in_order (steps : list step) : bool :=
  match steps with
  | [Arrange; Act; AssertStep] | [Act; AssertStep]
  | [Arrange; ActAndAssert] | [ActAndAssert] => true
  | _ => false
  end.

End Wiring.

(** ** What the examples do when they run

    The test methods as functions.  The values are [None], booleans,
    integers, strings, lists and tuples; a statement either completes or
    raises an exception.  The placeholders the examples call are
    parameters. *)

Module Pytest.
Import Lexer Ast.
#[local] Open Scope list_scope.
#[local] Set Warnings "-register-all".

Inductive value : Type :=
| VNone
| VBool (b : bool)
| VInt (z : Z)
| VStr (s : string)
| VList (vs : list value)
| VTuple (vs : list value).

(** An exception: the names of its class and of the bases of the class,
    and its message, what [str] gives of it. *)
Record exn : Type := Exn { exn_classes : list string; exn_message : string }.

Definition isinstance (e : exn) (class : string) : bool :=
  mem_string class (exn_classes e).

Definition AssertionError : exn :=
  Exn ["AssertionError"; "Exception"; "BaseException"] EmptyString.
Definition TypeError : exn :=
  Exn ["TypeError"; "Exception"; "BaseException"] EmptyString.
Definition IndexError : exn :=
  Exn ["IndexError"; "LookupError"; "Exception"; "BaseException"] EmptyString.
(** What [pytest.raises] raises when its block raises nothing, and what
    pytest reports for a row of [parametrize] that does not give one
    value per name. *)
Definition DidNotRaise : exn := Exn ["Failed"; "BaseException"] "DID NOT RAISE".
Definition WrongNumberOfValues : exn :=
  Exn ["Failed"; "BaseException"] "wrong number of values".

(** The run of a piece of code: it returns or it raises. *)
Inductive run (A : Type) : Type :=
| Ok (a : A)
| Raise (e : exn).
Arguments Ok {A} a.
Arguments Raise {A} e.

Definition and_then {A B : Type} (r : run A) (k : A -> run B) : run B :=
  match r with
  | Ok a => k a
  | Raise e => Raise e
  end.

Declare Scope run_scope.
Delimit Scope run_scope with run.
Notation "x <- c ;; k" := (and_then c (fun x => k))
  (at level 100, c at next level, right associativity) : run_scope.
Notation "c ;; k" := (and_then c (fun _ => k))
  (at level 100, right associativity) : run_scope.

(** A test passes when it returns. *)
Definition passes {A : Type} (r : run A) : bool :=
  match r with Ok _ => true | Raise _ => false end.

(** The statement [assert b]. *)
Definition assert_ (b : bool) : run unit :=
  if b then Ok tt else Raise AssertionError.

(** [x is None]: identity with the one [None]. *)
Definition is_none (v : value) : bool :=
  match v with VNone => true | _ => false end.

(** [a == b] on these values: numbers by value ([True == 1]), strings,
    lists and tuples element by element, a list never equal to a tuple. *)
Fixpoint py_eq (a b : value) {struct a} : bool :=
  match a, b with
  | VNone, VNone => true
  | VBool x, VBool y => Bool.eqb x y
  | VBool x, VInt y => Z.eqb (Z.b2z x) y
  | VInt x, VBool y => Z.eqb x (Z.b2z y)
  | VInt x, VInt y => Z.eqb x y
  | VStr x, VStr y => String.eqb x y
  | VList xs, VList ys | VTuple xs, VTuple ys =>
      (fix all2 (xs ys : list value) {struct xs} : bool :=
         match xs, ys with
         | [], [] => true
         | x :: xs', y :: ys' => py_eq x y && all2 xs' ys'
         | _, _ => false
         end) xs ys
  | _, _ => false
  end.

(** [with pytest.raises(class, match=pattern): body].  The block must
    raise an instance of the class; another exception goes through;
    with a pattern, the pattern must be found in the message.  The
    patterns of the template hold no special character of regular
    expressions, so that finding them is finding a substring. *)
Definition raises {A : Type} (class : string) (pattern : option string)
  (body : run A) : run unit :=
  match body with
  | Ok _ => Raise DidNotRaise
  | Raise e =>
      if isinstance e class then
        match pattern with
        | None => Ok tt
        | Some p => assert_ (has_infix p (exn_message e))
        end
      else Raise e
  end.

(** *** Literals of the syntax tree as values *)

Fixpoint literal (e : expr) {struct e} : option value :=
  match e with
  | Num n => Some (VInt (Z.of_N n))
  | Str s => Some (VStr s)
  | Constant CNone => Some VNone
  | Constant CTrue => Some (VBool true)
  | Constant CFalse => Some (VBool false)
  | Neg x =>
      match literal x with
      | Some (VInt z) => Some (VInt (Z.opp z))
      | Some (VBool b) => Some (VInt (Z.opp (Z.b2z b)))
      | _ => None
      end
  | Tuple es =>
      option_map VTuple
        ((fix all (es : list expr) : option (list value) :=
            match es with
            | [] => Some []
            | x :: es' =>
                match literal x, all es' with
                | Some v, Some vs => Some (v :: vs)
                | _, _ => None
                end
            end) es)
  | ListDisplay es =>
      option_map VList
        ((fix all (es : list expr) : option (list value) :=
            match es with
            | [] => Some []
            | x :: es' =>
                match literal x, all es' with
                | Some v, Some vs => Some (v :: vs)
                | _, _ => None
                end
            end) es)
  | _ => None
  end.

(** The rows of the [parametrize] marks of a function, as values. *)
Definition table_of (f : stmt) : list value :=
  flat_map (fun d => match Wiring.parametrize_of d with
                     | Some (_, rows) =>
                         flat_map (fun r => match literal r with
                                            | Some v => [v]
                                            | None => []
                                            end) rows
                     | None => []
                     end) (Analysis.decorators_of f).

End Pytest.

(** ** The examples as functions *)

Module Examples.
Import Pytest.
#[local] Open Scope list_scope.
#[local] Open Scope run_scope.

(** *** [TestClassOrFunctionName]: the parametrized test (lines 56-70) *)

Section Calculate.

(** The placeholder [calculate_function]. *)
Variable calculate_function : value -> run value.

Definition test_should_calculate_correctly_when_given_values
  (input_value expected_output : value) : run unit :=
  (* Act *)
  result <- calculate_function input_value ;;
  (* Assert *)
  assert_ (py_eq result expected_output).

(** pytest calls the test once per row of the table, the two values of
    the row for the two names [input_value,expected_output]. *)
Definition run_row (row : value) : run unit :=
  match row with
  | VTuple [i; o] | VList [i; o] =>
      test_should_calculate_correctly_when_given_values i o
  | _ => Raise WrongNumberOfValues
  end.

End Calculate.

(** The function [x -> a * x + b] on integers. *)
Definition affine (a b : Z) (v : value) : run value :=
  match v with
  | VInt x => Ok (VInt (a * x + b))
  | VBool t => Ok (VInt (a * Z.b2z t + b))
  | _ => Raise TypeError
  end.

(** *** [TestDomainEntity] (lines 152-193) *)

(** The placeholder class [DomainEntity] with the placeholder classes
    [DomainError] and [EntityPublishedEvent], as the tests use them: an
    entity is created from a title and a content, has attributes, is
    changed in place by [add_tag] and [publish], and hands out its
    events; every operation may raise.  A method that changes the entity
    returns its new state.  The operations are functions of their
    arguments, and reading an attribute changes nothing: within the run
    of one test, where each call works on the state the call before
    left, whatever an implementation keeps beside the entity (a counter,
    a clock) counts as part of that state; the record says nothing of
    how two separate runs relate. *)
Record DomainEntityClass : Type := {
  entity : Type;
  event : Type;
  create : value -> value -> run entity;
  attr : string -> entity -> run value;
  add_tag : value -> entity -> run entity;
  publish : entity -> run entity;
  get_events : entity -> run (list event * entity);
  is_published_event : event -> bool
}.

Section DomainEntity.

Variable DomainEntity : DomainEntityClass.

Definition test_should_create_entity_when_valid_input : run unit :=
  (* Arrange *)
  let title := VStr "Test Title" in
  let content := VStr "Test Content" in
  (* Act *)
  e <- create DomainEntity title content ;;
  (* Assert *)
  id <- attr DomainEntity "id" e ;;
  assert_ (negb (is_none id)) ;;
  t <- attr DomainEntity "title" e ;;
  assert_ (py_eq t title) ;;
  c <- attr DomainEntity "content" e ;;
  assert_ (py_eq c content) ;;
  st <- attr DomainEntity "status" e ;;
  assert_ (py_eq st (VStr "draft")).

Definition test_should_raise_domain_error_when_invalid_business_rule
  : run unit :=
  (* Arrange *)
  e <- create DomainEntity (VStr "Title") (VStr "Content") ;;
  (* Act & Assert *)
  raises "DomainError" (Some "Cannot publish without tags")
    (publish DomainEntity e).

Definition test_should_apply_business_logic_when_method_called : run unit :=
  (* Arrange *)
  e <- create DomainEntity (VStr "Title") (VStr "Content") ;;
  e <- add_tag DomainEntity (VStr "test") e ;;
  (* Act *)
  e <- publish DomainEntity e ;;
  (* Assert *)
  st <- attr DomainEntity "status" e ;;
  assert_ (py_eq st (VStr "published")) ;;
  at_ <- attr DomainEntity "published_at" e ;;
  assert_ (negb (is_none at_)) ;;
  r <- get_events DomainEntity e ;;
  assert_ (Nat.eqb (length (fst r)) 1) ;;
  r <- get_events DomainEntity (snd r) ;;
  match fst r with
  | ev :: _ => assert_ (is_published_event DomainEntity ev)
  | [] => Raise IndexError
  end.

End DomainEntity.

(** An entity that keeps its tags and events, publishes once it has a
    tag, and refuses before. *)
Record reference_entity : Type := {
  ref_title : value;
  ref_content : value;
  ref_status : string;
  ref_published_at : value;
  ref_tags : list value;
  ref_events : list string
}.

Definition reference : DomainEntityClass := {|
  entity := reference_entity;
  event := string;
  create := fun t c =>
    Ok {| ref_title := t; ref_content := c; ref_status := "draft";
          ref_published_at := VNone; ref_tags := []; ref_events := [] |};
  attr := fun name e =>
    if String.eqb name "id" then Ok (VInt 1)
    else if String.eqb name "title" then Ok (ref_title e)
    else if String.eqb name "content" then Ok (ref_content e)
    else if String.eqb name "status" then Ok (VStr (ref_status e))
    else if String.eqb name "published_at" then Ok (ref_published_at e)
    else Raise (Exn ["AttributeError"; "Exception"; "BaseException"] name);
  add_tag := fun tag e =>
    Ok {| ref_title := ref_title e; ref_content := ref_content e;
          ref_status := ref_status e;
          ref_published_at := ref_published_at e;
          ref_tags := tag :: ref_tags e; ref_events := ref_events e |};
  publish := fun e =>
    match ref_tags e with
    | [] =>
        Raise (Exn ["DomainError"; "Exception"; "BaseException"]
                 "Cannot publish without tags")
    | _ :: _ =>
        Ok {| ref_title := ref_title e; ref_content := ref_content e;
              ref_status := "published";
              ref_published_at := VStr "2024-01-01T00:00:00";
              ref_tags := ref_tags e;
              ref_events := ref_events e ++ ["EntityPublishedEvent"] |}
    end;
  get_events := fun e => Ok (ref_events e, e);
  is_published_event := fun ev => String.eqb ev "EntityPublishedEvent"
|}.

End Examples.

(** ** Names bound before they are read

    The template has no branch and no loop, so that the statements of
    a body run in the order of the text and a name is bound at a point
    when an earlier statement bound it. *)

Module Flow.
Import Lexer Ast Analysis.
#[local] Open Scope list_scope.

(** The names of [names] that [env] does not bind. *)
Definition unbound (env names : list string) : list string :=
  List.filter (fun x => negb (mem_string x env)) names.

(** The items of a [with] statement, in order: each context expression
    is evaluated, then its [as] name is bound. *)
Fixpoint flow_items (env : list string) (items : list (expr * option string))
  : list string * list string :=
  match items with
  | [] => ([], env)
  | (e, target) :: items' =>
      let env1 := match target with
                  | Some x => x :: env
                  | None => env
                  end in
      let (us, env2) := flow_items env1 items' in
      (unbound env (expr_names e) ++ us, env2)
  end.

(** [flow env s]: the names the statement [s] reads that are not bound
    when it runs with the names [env] bound, and the names bound after
    it.  A class runs its decorators and its body at once, in a scope
    of its own; a function runs its decorators, its body only when
    called. *)
Fixpoint flow (env : list string) (s : stmt) {struct s}
  : list string * list string :=
  match s with
  | Import md => ([], firstn 1 md ++ env)
  | ImportFrom _ names => ([], names ++ env)
  | ClassDef c decs body =>
      let inner :=
        (fix block (env : list string) (ss : list stmt)
           : list string * list string :=
           match ss with
           | [] => ([], env)
           | x :: ss' =>
               let (u, env1) := flow env x in
               let (us, env2) := block env1 ss' in
               (u ++ us, env2)
           end) env body in
      (unbound env (flat_map expr_names decs) ++ fst inner, c :: env)
  | FunctionDef _ fn _ decs _ =>
      (unbound env (flat_map expr_names decs), fn :: env)
  | Assign (Name x) v => (unbound env (expr_names v), x :: env)
  | Assign t v => (unbound env (expr_names v ++ expr_names t), env)
  | Expr e => (unbound env (expr_names e), env)
  | Assert t m => (unbound env (expr_names t ++ opt_names m), env)
  | Pass => ([], env)
  | Return v => (unbound env (opt_names v), env)
  | With items body =>
      let (us, env1) := flow_items env items in
      let inner :=
        (fix block (env : list string) (ss : list stmt)
           : list string * list string :=
           match ss with
           | [] => ([], env)
           | x :: ss' =>
               let (u, env1) := flow env x in
               let (us, env2) := block env1 ss' in
               (u ++ us, env2)
           end) env1 body in
      (us ++ fst inner, snd inner)
  end.

(** The same for a sequence of statements. *)
Fixpoint flow_block (env : list string) (ss : list stmt)
  : list string * list string :=
  match ss with
  | [] => ([], env)
  | x :: ss' =>
      let (u, env1) := flow env x in
      let (us, env2) := flow_block env1 ss' in
      (u ++ us, env2)
  end.

(** The names bound at the top level once the module is imported. *)
Definition module_env (m : list stmt) : list string :=
  snd (flow_block builtins m).

(** What a call of the function [f] reads unbound.  The parameters are
    bound; a name the body assigns is local to the function in all of
    the body, whatever the module binds under that name; the other names
    are those of the module. *)
Definition unbound_in_call (m : list stmt) (f : stmt) : list string :=
  let locals := flat_map stmt_defs (body_of f) in
  let globals :=
    List.filter (fun x => negb (mem_string x locals)) (module_env m) in
  dedup [] (fst (flow_block (params_of f ++ globals) (body_of f))).

(** *** Attributes of the test instance *)

(** The attributes [self.a] an expression reads. *)
Fixpoint self_attrs (e : expr) {struct e} : list string :=
  match e with
  | Attribute (Name x) a => if String.eqb x "self" then [a] else []
  | Name _ | Num _ | Str _ | Constant _ => []
  | Attribute v _ => self_attrs v
  | Subscript v i => self_attrs v ++ self_attrs i
  | Call f args kws =>
      self_attrs f ++ flat_map self_attrs args
      ++ flat_map (fun kw => self_attrs (snd kw)) kws
  | Tuple es | ListDisplay es => flat_map self_attrs es
  | Dict kvs =>
      flat_map (fun kv => self_attrs (fst kv) ++ self_attrs (snd kv)) kvs
  | Compare l rest =>
      self_attrs l ++ flat_map (fun oc => self_attrs (snd oc)) rest
  | Neg v | Await v => self_attrs v
  end.

Definition opt_self_attrs (o : option expr) : list string :=
  match o with
  | Some e => self_attrs e
  | None => []
  end.

(** The attributes of [self] a statement reads; the attribute on the
    left of an assignment is written, not read. *)
Fixpoint self_reads (s : stmt) {struct s} : list string :=
  match s with
  | Import _ | ImportFrom _ _ | Pass => []
  | ClassDef _ decs body | FunctionDef _ _ _ decs body =>
      flat_map self_attrs decs ++ flat_map self_reads body
  | Assign (Attribute (Name _) _) v => self_attrs v
  | Assign t v => self_attrs t ++ self_attrs v
  | Expr e => self_attrs e
  | Assert t m => self_attrs t ++ opt_self_attrs m
  | Return v => opt_self_attrs v
  | With items body =>
      flat_map (fun it => self_attrs (fst it)) items
      ++ flat_map self_reads body
  end.

(** The attributes of [self] a statement assigns. *)
Fixpoint self_writes (s : stmt) {struct s} : list string :=
  match s with
  | Assign (Attribute (Name x) a) _ =>
      if String.eqb x "self" then [a] else []
  | ClassDef _ _ body | FunctionDef _ _ _ _ body | With _ body =>
      flat_map self_writes body
  | _ => []
  end.

(** What [setup_method] of a class assigns on [self]: pytest calls it
    before each test of the class. *)
Definition setup_writes (c : stmt) : list string :=
  flat_map self_writes
    (List.filter (fun f => String.eqb (stmt_name f) "setup_method")
       (methods c)).

(** *** Importing the module *)

Definition path_eqb (a b : list string) : bool :=
  Nat.eqb (length a) (length b)
  && forallb (fun p => String.eqb (fst p) (snd p)) (combine a b).

(** [available] lists the modules that can be imported, each with the
    names it exports. *)
Definition has_module (available : list (list string * list string))
  (md : list string) : bool :=
  existsb (fun a => path_eqb (fst a) md) available.

Definition exports (available : list (list string * list string))
  (md : list string) (name : string) : bool :=
  existsb (fun a => path_eqb (fst a) md && mem_string name (snd a)) available.

Inductive import_outcome : Type :=
| Imported (env : list string)
| ModuleNotFoundError (md : list string)
| ImportError (md : list string)
| NameError (names : list string).

(** Importing a module runs its statements in order, with the names
    [env] bound.  An import statement needs its module
    ([ModuleNotFoundError] without it) and, for [from ... import], the
    names it takes from the module ([ImportError] without them); any
    other statement must find bound the names it reads ([NameError]).
    The outcome is the first failure, or the names bound at the end. *)
Fixpoint import_module (available : list (list string * list string))
  (env : list string) (ss : list stmt) : import_outcome :=
  match ss with
  | [] => Imported env
  | s :: ss' =>
      match s with
      | Import md =>
          if has_module available md
          then import_module available (firstn 1 md ++ env) ss'
          else ModuleNotFoundError md
      | ImportFrom md names =>
          if has_module available md then
            if forallb (exports available md) names
            then import_module available (names ++ env) ss'
            else ImportError md
          else ModuleNotFoundError md
      | _ =>
          let (u, env1) := flow env s in
          match u with
          | [] => import_module available env1 ss'
          | _ :: _ => NameError u
          end
      end
  end.

(** The libraries the template imports from, with the names it takes
    from them.  The repository itself holds no module to import. *)
Definition libraries : list (list string * list string) :=
  [ (["pytest"], []);
    (["unittest"; "mock"], ["Mock"; "patch"; "MagicMock"]) ].

End Flow.

(** * Properties *)

Import Template Lexer Ast Analysis Provider.
#[local] Open Scope list_scope.

(** ** Lines and text *)

Lemma split_lines_single (l : string) :
  no_line_feed l = true -> split_lines l = [l].
Proof.
  induction l as [|c l IH]; simpl; intros H; [reflexivity|].
  apply andb_prop in H as [Hc Hl].
  apply negb_true_iff in Hc. rewrite Hc, (IH Hl). reflexivity.
Qed.

Lemma split_lines_cons (l rest : string) :
  no_line_feed l = true ->
  split_lines (l ++ LF ++ rest)%string = l :: split_lines rest.
Proof.
  induction l as [|c l IH]; simpl; intros H; [reflexivity|].
  apply andb_prop in H as [Hc Hl].
  apply negb_true_iff in Hc. rewrite Hc. simpl in IH. rewrite (IH Hl).
  reflexivity.
Qed.

(** Cutting at the line feeds undoes joining with line feeds. *)
Lemma split_lines_concat (ls : list string) :
  ls <> [] -> forallb no_line_feed ls = true ->
  split_lines (String.concat LF ls) = ls.
Proof.
  induction ls as [|l ls IH]; [congruence|].
  intros _ H. simpl in H. apply andb_prop in H as [Hl Hls].
  destruct ls as [|l' ls].
  - simpl. now apply split_lines_single.
  - change (String.concat LF (l :: l' :: ls))
      with (l ++ LF ++ String.concat LF (l' :: ls))%string.
    rewrite split_lines_cons by assumption.
    f_equal. apply IH; [discriminate | assumption].
Qed.

(** The lines of the text are the lines of the file. *)
Lemma template_text_lines : split_lines template_text = template_lines.
Proof.
  unfold template_text. apply split_lines_concat.
  - discriminate.
  - vm_compute. reflexivity.
Qed.

(** ** The lexer has fuel enough

    Every step of [lex_chars] consumes a character, so the fuel
    [lex_lines] gives it for a line, one more than the length of the
    line, never runs out. *)

Lemma span_rest_length (p : ascii -> bool) (s : string) :
  String.length (span p s).2 <= String.length s.
Proof.
  induction s as [|c s IH]; simpl; [lia|].
  destruct (p c); simpl; [|lia].
  destruct (span p s) as [a b]. simpl in *. lia.
Qed.

Lemma span_rest_shorter (p : ascii -> bool) (c : ascii) (s : string) :
  p c = true -> String.length (span p (String c s)).2 <= String.length s.
Proof.
  intros H. simpl. rewrite H.
  pose proof (span_rest_length p s) as L.
  destruct (span p s) as [a b]. exact L.
Qed.

Lemma scan_short_shorter (q : ascii) (s body rest : string) :
  scan_short q s = Some (body, rest) -> String.length rest < String.length s.
Proof.
  revert body. induction s as [|c s IH]; simpl; intros body H; [discriminate|].
  destruct (Ascii.eqb c q); [injection H as _ <-; lia|].
  destruct (is_char 92 c); [discriminate|].
  destruct (scan_short q s) as [[b r]|] eqn:E; [|discriminate].
  injection H as _ <-. specialize (IH b eq_refl). lia.
Qed.

Lemma scan_long_shorter (q : ascii) (s body rest : string) :
  scan_long q s = Some (body, rest) -> String.length rest < String.length s.
Proof.
  revert body. induction s as [|c s IH]; intros body H; [discriminate|].
  cbn [scan_long] in H.
  destruct s as [|c2 [|c3 r3]]; try discriminate.
  destruct (Ascii.eqb c q && Ascii.eqb c2 q && Ascii.eqb c3 q).
  - injection H as _ <-. simpl. lia.
  - destruct (is_char 92 c); [discriminate|].
    destruct (scan_long q (String c2 (String c3 r3))) as [[b r]|] eqn:E;
      [|discriminate].
    injection H as _ <-. specialize (IH b eq_refl). simpl in *. lia.
Qed.

Lemma emit_fuel (r : result (list token * nat)) (t : token) :
  r <> out_of_fuel ->
  (let* (ts, d) := r in Parsed (t :: ts, d)) <> out_of_fuel.
Proof.
  destruct r as [[ts d]|msg]; simpl; [discriminate|]. exact (fun H => H).
Qed.

Lemma lex_chars_fuel (fuel : nat) (s : string) (depth : nat) :
  String.length s < fuel -> lex_chars fuel s depth <> out_of_fuel.
Proof.
  revert s depth. induction fuel as [|fuel IH]; intros s depth Hlen; [lia|].
  destruct s as [|c rest]; [discriminate|].
  simpl in Hlen.
  assert (Hrest : forall d, lex_chars fuel rest d <> out_of_fuel)
    by (intros d; apply IH; lia).
  assert (Hemit : forall t r d, String.length r <= String.length rest ->
            (let* (ts, d') := lex_chars fuel r d in Parsed (t :: ts, d'))
            <> out_of_fuel)
    by (intros t r d Hr; apply emit_fuel, IH; lia).
  cbn [lex_chars].
  destruct (is_char 32 c); [apply Hrest|].
  destruct (is_char 35 c); [discriminate|].
  destruct (is_name_start c) eqn:Hn.
  { assert (Hc : is_name_char c = true) by (unfold is_name_char; now rewrite Hn).
    pose proof (span_rest_shorter is_name_char c rest Hc) as L.
    destruct (span is_name_char (String c rest)) as [w r]. simpl in L.
    destruct (starts is_quote r); [discriminate|].
    destruct (keyword_of w); [now apply Hemit|].
    destruct (mem_string w other_keywords); [discriminate | now apply Hemit]. }
  destruct (is_digit c) eqn:Hd.
  { pose proof (span_rest_shorter is_digit c rest Hd) as L.
    destruct (span is_digit (String c rest)) as [w r]. simpl in L.
    destruct (_ || _ || _); [discriminate|].
    destruct (decimal_ok w); [now apply Hemit | discriminate]. }
  destruct (is_quote c).
  { destruct rest as [|c2 [|c3 r3]].
    - simpl. discriminate.
    - destruct (scan_short c (String c2 "")) as [[b r]|] eqn:E; [|discriminate].
      apply scan_short_shorter in E. apply Hemit. lia.
    - destruct (Ascii.eqb c2 c && Ascii.eqb c3 c).
      + destruct (scan_long c r3) as [[b r]|] eqn:E; [|discriminate].
        apply scan_long_shorter in E. apply Hemit. simpl. lia.
      + destruct (scan_short c _) as [[b r]|] eqn:E; [|discriminate].
        apply scan_short_shorter in E. apply Hemit. lia. }
  repeat match goal with
  | |- (if is_char ?n c then _ else _) <> _ => destruct (is_char n c)
  | |- (if Nat.ltb ?a ?b then _ else _) <> _ => destruct (Nat.ltb a b)
  | |- (if starts ?p ?r || _ then _ else _) <> _ => destruct (starts p r || _)
  | |- (if starts ?p ?r then _ else _) <> _ => destruct (starts p r)
  | |- (match depth with _ => _ end) <> _ => destruct depth
  | |- (let* _ := lex_chars fuel rest _ in _) <> _ => apply Hemit; lia
  | |- SyntaxError _ <> _ => discriminate
  end.
  destruct rest as [|c2 rest2].
  - apply Hemit; simpl; lia.
  - destruct (is_char 61 c2); apply Hemit; simpl; lia.
Qed.

Lemma indent_tokens_fuel (col : nat) (stack : list nat) :
  indent_tokens col stack <> out_of_fuel.
Proof.
  unfold indent_tokens.
  destruct (Nat.ltb (hd 0 stack) col).
  - destruct (Nat.ltb _ _); discriminate.
  - destruct (dedent_to col stack) as [[n st]|]; discriminate.
Qed.

Lemma lex_lines_fuel (ls : list string) (stack : list nat) (depth : nat) :
  lex_lines ls stack depth <> out_of_fuel.
Proof.
  revert stack depth.
  induction ls as [|l ls IH]; intros stack depth; cbn [lex_lines].
  - destruct (Nat.eqb depth 0); discriminate.
  - destruct (count_indent l) as [col body].
    destruct (is_blank body); [apply IH|].
    assert (Hpre : (if Nat.eqb depth 0 then indent_tokens col stack
                    else Parsed ([], stack))
                   <> out_of_fuel).
    { destruct (Nat.eqb depth 0); [apply indent_tokens_fuel | discriminate]. }
    unfold out_of_fuel in *.
    destruct (if Nat.eqb depth 0 then indent_tokens col stack
              else Parsed ([], stack)) as [[pre stack']|msg];
      cbn [bind]; [|congruence].
    pose proof (lex_chars_fuel (S (String.length body)) body depth
                  ltac:(lia)) as Hc.
    unfold out_of_fuel in Hc.
    destruct (lex_chars (S (String.length body)) body depth)
      as [[toks depth']|msg]; cbn [bind]; [|congruence].
    specialize (IH stack' depth').
    destruct (lex_lines ls stack' depth'); cbn [bind];
      [discriminate | exact IH].
Qed.

(** The lexer never gives up for lack of fuel. *)
Lemma tokenize_fuel (text : string) :
  tokenize text <> out_of_fuel.
Proof.
  unfold tokenize.
  destruct (negb _); [discriminate|].
  destruct (declares_encoding _); [discriminate|].
  apply lex_lines_fuel.
Qed.

(** ** The syntax checker at work *)

(** The checker yields the tree of [Source] from the text. *)
Lemma template_parses :
  syntax_check template_text = Parsed Source.template_module.
Proof. vm_compute. reflexivity. Qed.

(** Small texts, accepted and refused. *)
Example accepts_call_statement :
  syntax_check "entity.publish()"
  = Parsed [Expr (Call (Attribute (Name "entity") "publish") [] [])].
Proof. vm_compute. reflexivity. Qed.

Example accepts_indented_block :
  syntax_check ("class A:" ++ LF ++ "    def f(self): # no body here" ++ LF
                ++ "        return self" ++ LF)%string
  = Parsed [ClassDef "A" []
              [FunctionDef false "f" ["self"] [] [Return (Some (Name "self"))]]].
Proof. vm_compute. reflexivity. Qed.

Example refuses_missing_colon :
  is_parsed (syntax_check ("class A" ++ LF ++ "    pass")%string) = false.
Proof. vm_compute. reflexivity. Qed.

Example refuses_unclosed_bracket :
  syntax_check "result = function_under_test(input_data"
  = SyntaxError "bracket was never closed".
Proof. vm_compute. reflexivity. Qed.

Example refuses_bad_dedent :
  syntax_check ("def f():" ++ LF ++ "        pass" ++ LF ++ "    pass")%string
  = SyntaxError "unindent does not match any outer indentation level".
Proof. vm_compute. reflexivity. Qed.

Example refuses_missing_block :
  syntax_check ("def f():" ++ LF ++ "pass")%string
  = SyntaxError "expected an indented block".
Proof. vm_compute. reflexivity. Qed.

Example refuses_await_outside_async :
  is_parsed (syntax_check ("def f():" ++ LF ++ "    await g()")%string) = false.
Proof. vm_compute. reflexivity. Qed.

Example refuses_unterminated_string :
  syntax_check ("title = " ++ Q ++ "Test Title")%string
  = SyntaxError "unterminated string literal".
Proof. vm_compute. reflexivity. Qed.

Example refuses_assignment_to_call :
  syntax_check "f() = 1" = SyntaxError "cannot assign to expression".
Proof. vm_compute. reflexivity. Qed.

(** ** Membership, as computed and as stated *)

Lemma mem_string_In (x : string) (l : list string) :
  mem_string x l = true <-> In x l.
Proof.
  unfold mem_string. rewrite existsb_exists. split.
  - intros (y & Hy & E). apply String.eqb_eq in E. now subst.
  - intros H. exists x. split; [assumption | apply String.eqb_refl].
Qed.

Lemma mem_string_not_In (x : string) (l : list string) :
  mem_string x l = false -> ~ In x l.
Proof.
  intros E H. apply mem_string_In in H. congruence.
Qed.

(** ** The store is never written *)

Lemma perform_frame (op : operation) (files : gmap string string) :
  (perform op files).2 = files.
Proof. destruct op. reflexivity. Qed.

Lemma run_frame (ops : list operation) (files : gmap string string) :
  (run ops files).2 = files.
Proof.
  revert files. induction ops as [|op ops IH]; intros files; [reflexivity|].
  simpl. pose proof (perform_frame op files) as Hop.
  destruct (perform op files) as [out files1]. simpl in Hop. subst files1.
  specialize (IH files). destruct (run ops files) as [outs files2].
  exact IH.
Qed.

Lemma repository_lookup :
  repository !! template_path = Some template_text.
Proof. unfold repository. apply lookup_singleton_eq. Qed.

(** The only file of the repository is the template. *)
Lemma repository_file (path text : string) :
  repository !! path = Some text ->
  path = template_path /\ text = template_text.
Proof.
  unfold repository. intros H.
  apply lookup_singleton_Some in H as [-> ->]. split; reflexivity.
Qed.

(** What the repository defines is what the template's tree defines. *)
Lemma defined_in_repository (x : string) :
  defined_in repository x -> In x (defined_names Source.template_module).
Proof.
  intros (path & text & m & Hfile & Hparse & Hin).
  apply repository_file in Hfile as [_ ->].
  rewrite template_parses in Hparse.
  injection Hparse as <-. exact Hin.
Qed.

(** ** The claims *)

(** C1.  The document holds exactly four named example sections, the
    classes [TestClassOrFunctionName] (basic behaviour tests),
    [TestClassWithDependencies] (dependency-mocked tests),
    [TestAsyncOperations] (async operation tests) and [TestDomainEntity]
    (domain-entity tests): beside the imports the module holds these four
    classes and nothing else, each has a title, and each is non-empty: it
    has at least one test method, every test method has at least one
    statement after its docstring, and so every section has example
    statements. *)
Theorem four_example_sections :
  exists m : list stmt,
    syntax_check template_text = Parsed m
    /\ length (classes m) = 4
    /\ map stmt_name (classes m) = section_names
    /\ map (fun c => docstring (body_of c)) (classes m) = section_titles
    /\ List.filter (fun s => negb (is_import s)) m = classes m
    /\ Forall (fun c =>
                 1 <= length (test_methods c)
                 /\ Forall (fun t => 1 <= length (code_of (body_of t)))
                      (test_methods c)
                 /\ 1 <= length (example_statements c))
         (classes m).
Proof.
  exists Source.template_module. split; [exact template_parses|].
  repeat split; try reflexivity.
  vm_compute. repeat constructor.
Qed.

(** C2.  [get_template] takes no input beyond the store it reads, returns
    the stored text of the template as it is, and leaves the store as it
    was; on the repository, and after whatever operations, it does not
    fail: it returns the full text. *)
Theorem get_template_verbatim :
  get_template repository = (Some template_text, repository)
  /\ (forall ops : list operation,
        get_template (run ops repository).2
        = (Some template_text, repository))
  /\ forall files : gmap string string,
       get_template files = (files !! template_path, files).
Proof.
  split; [|split].
  - unfold get_template. now rewrite repository_lookup.
  - intros ops. rewrite run_frame. unfold get_template.
    now rewrite repository_lookup.
  - reflexivity.
Qed.

(** C3.  Each placeholder symbol the examples reference
    ([function_under_test], [calculate_function], [ServiceClass],
    [DomainEntity], [async_function_under_test], [DomainError],
    [EntityPublishedEvent], [expected_default_value]) is referenced in
    the document and defined nowhere: no import, class, function,
    parameter, assignment or [with] target of the document binds it, and
    no file of the repository defines it.  These eight are all the names
    the document references that neither it nor Python's builtins
    define. *)
Theorem placeholders_never_defined :
  exists m : list stmt,
    syntax_check template_text = Parsed m
    /\ unresolved_names m = placeholders
    /\ Forall (fun x =>
                 In x (referenced_names m)
                 /\ ~ In x (defined_names m)
                 /\ ~ defined_in repository x)
         placeholders.
Proof.
  exists Source.template_module. split; [exact template_parses|].
  split; [vm_compute; reflexivity|].
  apply Forall_forall. intros x Hx.
  assert (Hundef : ~ In x (defined_names Source.template_module)).
  { apply mem_string_not_In.
    revert x Hx. apply Forall_forall. vm_compute. repeat constructor. }
  split; [|split].
  - apply mem_string_In.
    revert x Hx Hundef. apply (Forall_forall (fun x => _ -> _)).
    repeat constructor.
  - exact Hundef.
  - intros Hrepo. apply Hundef. now apply defined_in_repository.
Qed.

(** C4.  Retrieving the document twice yields the same content: the
    second [get_template] returns what the first returned, from whatever
    store, and on the repository both return the text of the template. *)
Theorem retrieval_idempotent :
  (forall files : gmap string string,
     (get_template (get_template files).2).1 = (get_template files).1)
  /\ run [GetTemplate; GetTemplate] repository
     = ([Some template_text; Some template_text], repository).
Proof.
  split.
  - intros files. reflexivity.
  - unfold run, perform, get_template. now rewrite repository_lookup.
Qed.

(** C5.  The text of the document is syntactically valid Python: the
    syntax checker reports no error and yields the syntax tree, even
    though eight of the names it references are unresolved. *)
Theorem template_is_valid_python :
  exists m : list stmt,
    syntax_check template_text = Parsed m
    /\ is_parsed (syntax_check template_text) = true
    /\ length (unresolved_names m) = 8.
Proof.
  exists Source.template_module. rewrite template_parses.
  repeat split.
Qed.

(** C6.  The sections stand in this order: the synchronous basic tests
    (no [async] method, no fixture), the dependency-mocking tests (the
    section with the [@pytest.fixture] mocks), the asynchronous tests
    (the section with the [async] methods), the domain-entity tests (the
    section that exercises [DomainEntity]); their classes open at lines
    6, 73, 121 and 152. *)
Theorem sections_in_order :
  exists m : list stmt,
    syntax_check template_text = Parsed m
    /\ map stmt_name (classes m) = section_names
    /\ map (fun c => docstring (body_of c)) (classes m) = section_titles
    /\ map (fun c => existsb is_async_def (methods c)) (classes m)
       = [false; false; true; false]
    /\ map (fun c => existsb is_fixture (methods c)) (classes m)
       = [false; true; false; false]
    /\ map (fun c => mem_string "DomainEntity" (stmt_refs c)) (classes m)
       = [false; false; false; true]
    /\ class_headers 1 (split_lines template_text)
       = [ (6, "class TestClassOrFunctionName:");
           (73, "class TestClassWithDependencies:");
           (121, "class TestAsyncOperations:");
           (152, "class TestDomainEntity:") ].
Proof.
  exists Source.template_module. split; [exact template_parses|].
  rewrite template_text_lines.
  repeat split; vm_compute; reflexivity.
Qed.

(** C7.  The document has about 190 lines: 193 exactly, which is 190 to
    the nearest ten. *)
Theorem about_190_lines :
  line_count template_text = 193
  /\ round_to_ten (line_count template_text) = 190
  /\ length (split_lines template_text) = 193.
Proof.
  unfold line_count. rewrite template_text_lines.
  repeat split; vm_compute; reflexivity.
Qed.

(** C8.  No operation mutates the document: the store after an operation
    is the store before it, for one operation and for any sequence of
    them, so the repository keeps the text of the template under its
    path. *)
Theorem no_operation_mutates :
  (forall (op : operation) (files : gmap string string),
     (perform op files).2 = files)
  /\ (forall (ops : list operation) (files : gmap string string),
        (run ops files).2 = files)
  /\ forall ops : list operation,
       (run ops repository).2 !! template_path = Some template_text.
Proof.
  split; [|split].
  - exact perform_frame.
  - exact run_frame.
  - intros ops. rewrite run_frame. exact repository_lookup.
Qed.

(** What [Exists] and [Forall] state of membership, as computed. *)
Lemma Exists_mem_existsb (l l' : list string) :
  Exists (fun x => In x l') l ->
  existsb (fun x => mem_string x l') l = true.
Proof.
  intros H. apply List.Exists_exists in H as (x & Hx & Hin).
  apply existsb_exists. exists x. split; [assumption | now apply mem_string_In].
Qed.



(** C10.  Every class at the top level of the document bears a name that
    begins with [Test] and holds at least one method whose name begins
    with [test_]: pytest's naming convention finds each of the four
    sections. *)
Theorem pytest_discoverable :
  exists m : list stmt,
    syntax_check template_text = Parsed m
    /\ length (classes m) = 4
    /\ Forall (fun c =>
                 String.prefix "Test" (stmt_name c) = true
                 /\ Exists (fun t =>
                              is_function t = true
                              /\ String.prefix "test_" (stmt_name t) = true)
                      (body_of c))
         (classes m).
Proof.
  exists Source.template_module. split; [exact template_parses|].
  split; [reflexivity|].
  assert (H : forallb (fun c =>
              String.prefix "Test" (stmt_name c)
              && existsb is_test_method (body_of c))
            (classes Source.template_module) = true)
    by (vm_compute; reflexivity).
  rewrite forallb_forall in H. apply List.Forall_forall. intros c Hc.
  specialize (H c Hc). apply andb_prop in H as [Hn Ht].
  split; [assumption|].
  apply List.Exists_exists. apply existsb_exists in Ht as (t & Hin & Htest).
  exists t. split; [assumption|].
  unfold is_test_method in Htest. now apply andb_prop in Htest.
Qed.

(** * Further properties of the examples *)

Import Wiring Pytest Examples.

(** ** How pytest wires them *)

(** What [wired] computes. *)
Lemma wired_spec (c f : stmt) :
  wired c f = true ->
  exists ps : list string,
    params_of f = "self" :: ps
    /\ Forall (fun p =>
                 (exists g, In g (fixtures c) /\ stmt_name g = p)
                 \/ In p (parametrized_names f)) ps.
Proof.
  unfold wired. destruct (params_of f) as [|self ps]; [discriminate|].
  intros H. apply andb_prop in H as [Hself Hps].
  apply String.eqb_eq in Hself. subst self. exists ps. split; [reflexivity|].
  apply List.Forall_forall. intros p Hp.
  rewrite forallb_forall in Hps. specialize (Hps p Hp).
  apply orb_prop in Hps as [Hfix | Hpar].
  - left. apply mem_string_In, in_map_iff in Hfix as (g & Hname & Hg).
    exists g. split; assumption.
  - right. now apply mem_string_In.
Qed.

(** Every method of every class takes [self] first, and each further
    parameter is a fixture of the class or a name its [parametrize] mark
    supplies: pytest can call every test and build every fixture.  The
    fixtures are [mock_database], which requests nothing, and
    [service_instance], which requests [mock_database]; none requests
    itself. *)
Theorem fixtures_resolve :
  exists m : list stmt,
    syntax_check template_text = Parsed m
    /\ map (fun c => map (fun f => (stmt_name f, requests f)) (fixtures c))
         (classes m)
       = [ []; [("mock_database", []); ("service_instance", ["mock_database"])];
           []; [] ]
    /\ Forall (fun c =>
                 acyclic c = true
                 /\ Forall (fun f =>
                              exists ps : list string,
                                params_of f = "self" :: ps
                                /\ Forall (fun p =>
                                             (exists g, In g (fixtures c)
                                                        /\ stmt_name g = p)
                                             \/ In p (parametrized_names f))
                                     ps)
                      (methods c))
         (classes m).
Proof.
  exists Source.template_module. split; [exact template_parses|].
  split; [vm_compute; reflexivity|].
  assert (H : forallb (fun c => acyclic c && forallb (wired c) (methods c))
                (classes Source.template_module) = true)
    by (vm_compute; reflexivity).
  rewrite forallb_forall in H. apply List.Forall_forall. intros c Hc.
  specialize (H c Hc). apply andb_prop in H as [Hacyclic Hwired].
  split; [assumption|].
  apply List.Forall_forall. intros f Hf.
  rewrite forallb_forall in Hwired. now apply wired_spec, Hwired.
Qed.

(** The [parametrize] mark of
    [test_should_calculate_correctly_when_given_values] names the two
    parameters the test takes after [self], in their order, and each of
    its four rows gives two values; no other method carries such a
    mark. *)
Theorem parametrize_table_fits :
  exists m : list stmt,
    syntax_check template_text = Parsed m
    /\ Forall (fun c => Forall (fun f => parametrize_fits f = true) (methods c))
         (classes m)
    /\ flat_map (fun c =>
                   flat_map (fun f =>
                               match parametrized_names f with
                               | [] => []
                               | names =>
                                   [(stmt_name f, names, requests f,
                                     length (table_of f))]
                               end) (methods c)) (classes m)
       = [ ("test_should_calculate_correctly_when_given_values",
            ["input_value"; "expected_output"],
            ["input_value"; "expected_output"], 4) ]
    /\ table_of Source.test_should_calculate_correctly_when_given_values
       = [ VTuple [VInt 10; VInt 20]; VTuple [VInt 50; VInt 100];
           VTuple [VInt 0; VInt 0]; VTuple [VInt (-5); VInt (-10)] ].
Proof.
  exists Source.template_module. split; [exact template_parses|].
  split; [|split; vm_compute; reflexivity].
  vm_compute. repeat constructor.
Qed.

(** A method is a coroutine ([async def]) exactly when it carries the
    mark [@pytest.mark.asyncio], without which pytest would not await
    it; the coroutines are the two tests of [TestAsyncOperations]. *)
Theorem async_tests_are_marked :
  exists m : list stmt,
    syntax_check template_text = Parsed m
    /\ Forall (fun c =>
                 Forall (fun f => is_async_def f = has_mark "asyncio" f)
                   (methods c))
         (classes m)
    /\ map (fun c => map stmt_name (List.filter is_async_def (methods c)))
         (classes m)
       = [ []; [];
           [ "test_should_fetch_data_when_api_call_succeeds";
             "test_should_handle_error_when_api_call_fails" ];
           [] ].
Proof.
  exists Source.template_module. split; [exact template_parses|].
  split; [|vm_compute; reflexivity].
  vm_compute. repeat constructor.
Qed.

(** Every test method checks something (an [assert], a mock's
    [assert_...] call or a [pytest.raises] block), and the other methods
    ([setup_method], [teardown_method], the fixtures) check nothing. *)
Theorem every_test_asserts :
  exists m : list stmt,
    syntax_check template_text = Parsed m
    /\ Forall (fun c =>
                 Forall (fun f =>
                           existsb asserts (body_of f) = is_test_method f)
                   (methods c))
         (classes m)
    /\ map (fun c => length (test_methods c)) (classes m) = [4; 2; 2; 3].
Proof.
  exists Source.template_module. split; [exact template_parses|].
  split; [|vm_compute; reflexivity].
  vm_compute. repeat constructor.
Qed.

(** No two classes of the module and no two methods of a class bear the
    same name: no example hides another. *)
Theorem names_are_unique :
  exists m : list stmt,
    syntax_check template_text = Parsed m
    /\ List.NoDup (map stmt_name (classes m))
    /\ Forall (fun c => List.NoDup (map stmt_name (methods c))) (classes m).
Proof.
  exists Source.template_module. split; [exact template_parses|].
  assert (Hnodup : forall l, Check.no_dup l = true -> List.NoDup l).
  { induction l as [|x l IH]; simpl; intros H; [constructor|].
    apply andb_prop in H as [Hx Hl]. constructor.
    - apply mem_string_not_In. now apply negb_true_iff in Hx.
    - now apply IH. }
  split.
  - apply Hnodup. vm_compute. reflexivity.
  - assert (H : forallb (fun c => Check.no_dup (map stmt_name (methods c)))
                  (classes Source.template_module) = true)
      by (vm_compute; reflexivity).
    rewrite forallb_forall in H. apply List.Forall_forall. intros c Hc.
    apply Hnodup, H, Hc.
Qed.

(** Of the five names the module imports, [pytest], [Mock] and [patch]
    are used; [MagicMock] and [ClassOrFunctionName] are imported and
    never referenced. *)
Theorem unused_imports_of_template :
  exists m : list stmt,
    syntax_check template_text = Parsed m
    /\ imported_names m
       = ["pytest"; "Mock"; "patch"; "MagicMock"; "ClassOrFunctionName"]
    /\ unused_imports m = ["MagicMock"; "ClassOrFunctionName"]
    /\ Forall (fun x => In x (referenced_names m)) ["pytest"; "Mock"; "patch"].
Proof.
  exists Source.template_module. split; [exact template_parses|].
  do 2 (split; [vm_compute; reflexivity|]).
  apply List.Forall_forall. intros x Hx. apply mem_string_In.
  revert x Hx. apply List.Forall_forall. vm_compute. repeat constructor.
Qed.

(** Every test method is named [test_should_<behaviour>_when_<case>]. *)
Theorem tests_named_should_when :
  exists m : list stmt,
    syntax_check template_text = Parsed m
    /\ Forall (fun c =>
                 Forall (fun t =>
                           String.prefix "test_should_" (stmt_name t) = true
                           /\ has_infix "_when_" (stmt_name t) = true)
                   (test_methods c))
         (classes m).
Proof.
  exists Source.template_module. split; [exact template_parses|].
  vm_compute. repeat constructor.
Qed.

(** Every class and every method opens with a docstring. *)
Theorem everything_has_a_docstring :
  exists m : list stmt,
    syntax_check template_text = Parsed m
    /\ Forall (fun c =>
                 docstring (body_of c) <> None
                 /\ Forall (fun f => docstring (body_of f) <> None)
                      (methods c))
         (classes m).
Proof.
  exists Source.template_module. split; [exact template_parses|].
  vm_compute. repeat constructor; discriminate.
Qed.

(** Every line of the file is indented by a multiple of four blanks, is
    at most 79 characters long and ends with no blank. *)
Theorem lines_are_tidy :
  Forall (fun l => line_tidy 79 l = true) (split_lines template_text).
Proof.
  rewrite template_text_lines.
  assert (H : forallb (line_tidy 79) template_lines = true)
    by (vm_compute; reflexivity).
  rewrite forallb_forall in H. apply List.Forall_forall. exact H.
Qed.

(** ** What they demand of the placeholders *)

Lemma assert_ok (b : bool) : assert_ b = Ok tt <-> b = true.
Proof. destruct b; simpl; split; intros H; congruence. Qed.

(** The table of the parametrized test fixes the affine function it is
    run against: [calculate_function x = a * x + b] passes on every row
    exactly when it doubles its argument. *)
Theorem parametrize_table_is_doubling (a b : Z) :
  Forall (fun row => run_row (affine a b) row = Ok tt)
    (table_of Source.test_should_calculate_correctly_when_given_values)
  <-> a = 2%Z /\ b = 0%Z.
Proof.
  assert (Htable :
    table_of Source.test_should_calculate_correctly_when_given_values
    = [ VTuple [VInt 10; VInt 20]; VTuple [VInt 50; VInt 100];
        VTuple [VInt 0; VInt 0]; VTuple [VInt (-5); VInt (-10)] ])
    by (vm_compute; reflexivity).
  rewrite Htable. split.
  - intros H.
    inversion H as [|r1 l1 H1 H']; subst.
    inversion H' as [|r2 l2 _ H'']; subst.
    inversion H'' as [|r3 l3 H3 _]; subst.
    apply assert_ok in H1, H3. simpl in H1, H3.
    apply Z.eqb_eq in H1, H3. lia.
  - intros [-> ->]. repeat constructor.
Qed.

Section DomainEntityFacts.

Variable D : DomainEntityClass.


End DomainEntityFacts.

(** The reference class passes the three tests of [TestDomainEntity]. *)
Lemma reference_passes :
  test_should_create_entity_when_valid_input reference = Ok tt
  /\ test_should_raise_domain_error_when_invalid_business_rule reference = Ok tt
  /\ test_should_apply_business_logic_when_method_called reference = Ok tt.
Proof. repeat split. Qed.


(** ** Names and attributes are bound before they are read *)

Import Flow.

Lemma all_mem_Forall (l l' : list string) :
  forallb (fun x => mem_string x l') l = true ->
  Forall (fun x => In x l') l.
Proof.
  intros H. apply List.Forall_forall. intros x Hx.
  rewrite forallb_forall in H. now apply mem_string_In, H.
Qed.



(** When a test, a fixture, [setup_method] or [teardown_method] runs,
    every name it reads is bound by then (a parameter, a local assigned
    earlier in the body, an imported name, a class of the module or a
    builtin) unless it is one of the placeholders; the two tests of
    [TestClassWithDependencies] read no placeholder themselves. *)
Theorem only_placeholders_unbound :
  exists m : list stmt,
    syntax_check template_text = Parsed m
    /\ Forall (fun c =>
                 Forall (fun f =>
                           Forall (fun x => In x placeholders)
                             (unbound_in_call m f))
                   (methods c))
         (classes m)
    /\ map (fun c => map (fun f => unbound_in_call m f) (methods c))
         (classes m)
       = [ [ []; []; ["function_under_test"]; ["function_under_test"];
             ["function_under_test"; "expected_default_value"];
             ["calculate_function"] ];
           [ []; ["ServiceClass"]; []; [] ];
           [ ["async_function_under_test"]; ["async_function_under_test"] ];
           [ ["DomainEntity"]; ["DomainEntity"; "DomainError"];
             ["DomainEntity"; "EntityPublishedEvent"] ] ].
Proof.
  exists Source.template_module. split; [exact template_parses|].
  split; [|vm_compute; reflexivity].
  assert (H : forallb (fun c =>
                forallb (fun f =>
                  forallb (fun x => mem_string x placeholders)
                    (unbound_in_call Source.template_module f))
                  (methods c))
              (classes Source.template_module) = true)
    by (vm_compute; reflexivity).
  rewrite forallb_forall in H. apply List.Forall_forall. intros c Hc.
  specialize (H c Hc). rewrite forallb_forall in H.
  apply List.Forall_forall. intros f Hf.
  now apply all_mem_Forall, H.
Qed.

(** Every attribute of [self] a method reads was assigned by the
    [setup_method] of its class, which pytest runs before each test:
    the one attribute read is [test_data], by the first test, and
    [setup_method] of [TestClassOrFunctionName] assigns it;
    [teardown_method] reads and assigns none. *)
Theorem tests_read_what_setup_wrote :
  exists m : list stmt,
    syntax_check template_text = Parsed m
    /\ Forall (fun c =>
                 Forall (fun f =>
                           Forall (fun a => In a (setup_writes c))
                             (self_reads f))
                   (methods c))
         (classes m)
    /\ map setup_writes (classes m) = [["test_data"]; []; []; []]
    /\ map (fun c =>
              flat_map (fun f => match self_reads f with
                                 | [] => []
                                 | attrs => [(stmt_name f, attrs)]
                                 end) (methods c)) (classes m)
       = [ [("test_should_expected_behavior_when_valid_input", ["test_data"])];
           []; []; [] ]
    /\ map (fun c =>
              map (fun f => (self_reads f, self_writes f))
                (List.filter
                   (fun f => String.eqb (stmt_name f) "teardown_method")
                   (methods c))) (classes m)
       = [ [([], [])]; []; []; [] ].
Proof.
  exists Source.template_module. split; [exact template_parses|].
  split; [|repeat split; vm_compute; reflexivity].
  assert (H : forallb (fun c =>
                forallb (fun f =>
                  forallb (fun a => mem_string a (setup_writes c))
                    (self_reads f))
                  (methods c))
              (classes Source.template_module) = true)
    by (vm_compute; reflexivity).
  rewrite forallb_forall in H. apply List.Forall_forall. intros c Hc.
  specialize (H c Hc). rewrite forallb_forall in H.
  apply List.Forall_forall. intros f Hf.
  now apply all_mem_Forall, H.
Qed.

(** ** Arrange, Act, Assert *)

(** Each of the eleven tests marks its steps with comments, in the
    order Arrange, Act, Assert: seven as three steps, one (the
    parametrized test, which arranges nothing) as Act and Assert, three
    (the tests of an expected exception) as Arrange and a joint Act &
    Assert. *)
Theorem tests_follow_arrange_act_assert :
  Forall (fun hs => in_order (snd hs) = true)
    (test_steps (split_lines template_text))
  /\ map snd (test_steps (split_lines template_text))
     = [ [Arrange; Act; AssertStep]; [Arrange; ActAndAssert];
         [Arrange; Act; AssertStep]; [Act; AssertStep];
         [Arrange; Act; AssertStep]; [Arrange; Act; AssertStep];
         [Arrange; Act; AssertStep]; [Arrange; ActAndAssert];
         [Arrange; Act; AssertStep]; [Arrange; ActAndAssert];
         [Arrange; Act; AssertStep] ].
Proof.
  rewrite template_text_lines. split.
  - vm_compute. repeat constructor.
  - vm_compute. reflexivity.
Qed.
